(** * Calorie calculator ([main.py]): model and verified properties

    The calculator of [main.py] works on Python floats, which are IEEE 754
    binary64 numbers.  They are modelled by [spec_float] of the Standard
    Library at precision 53 and maximal exponent 1024; the arithmetic of the
    endpoint ([*], [/], [+=], [>], [round]) is the one of this format, with
    the exceptions Python raises written as an error result. *)

From Stdlib Require Import ZArith Lia List String Bool.
From Stdlib Require Import SpecFloat.
Import ListNotations.

Local Open Scope Z_scope.

(** ** Python exceptions as results *)

Inductive exn : Type :=
  | ZeroDivisionError
  | OverflowError.

Inductive result (A : Type) : Type :=
  | Ok (a : A)
  | Raise (e : exn).

Arguments Ok {A} a.
Arguments Raise {A} e.

Definition bind {A B : Type} (c : result A) (k : A -> result B) : result B :=
  match c with
  | Ok a => k a
  | Raise e => Raise e
  end.

Notation "x <- c ;; k" := (bind c (fun x => k))
  (at level 61, c at next level, right associativity).
Notation "' pat <- c ;; k" := (bind c (fun x => match x with pat => k end))
  (at level 61, pat pattern, c at next level, right associativity).

(** ** Python floats: IEEE 754 binary64 *)

Definition float : Type := spec_float.

Module F64.

Definition prec : Z := 53.
Definition emax : Z := 1024.

Definition mul : float -> float -> float := SFmul prec emax.
Definition div : float -> float -> float := SFdiv prec emax.
Definition add : float -> float -> float := SFadd prec emax.
Definition ltb : float -> float -> bool := SFltb.
Definition leb : float -> float -> bool := SFleb.
Definition eqb : float -> float -> bool := SFeqb.

(** The float of an integer, [float(z)], correctly rounded. *)
Definition of_Z (z : Z) : float := binary_normalize prec emax z 0 false.

(** The literals [0.0] and [100.0]. *)
Definition zero : float := S754_zero false.
Definition hundred : float := Eval vm_compute in of_Z 100.

Definition is_nan (x : float) : bool :=
  match x with S754_nan => true | _ => false end.

(** A finite value is a binary64 number when its mantissa has at most 53
    bits and its exponent is at most [emax - prec]. *)
Definition fits (x : float) : Prop :=
  match x with
  | S754_finite _ m e => Zpos (digits2_pos m) <= prec /\ e <= emax - prec
  | _ => True
  end.

End F64.

(** [x / y] on floats ([float_div]): [ZeroDivisionError] when [y == 0.0]. *)
Definition py_truediv (x y : float) : result float :=
  if F64.eqb y F64.zero then Raise ZeroDivisionError else Ok (F64.div x y).

(** [a / b] for integers [0 <= a], [0 < b], rounded to the nearest integer,
    ties to the even one. *)
Definition div_half_even (a b : Z) : Z :=
  let q := a / b in
  match 2 * (a mod b) ?= b with
  | Lt => q
  | Gt => q + 1
  | Eq => if Z.even q then q else q + 1
  end.

(** The integer nearest to [m * 2^e * scale], ties to even. *)
Definition scaled_nearest (m : positive) (e : Z) (scale : positive) : Z :=
  if 0 <=? e then Zpos m * Zpos scale * 2 ^ e
  else div_half_even (Zpos m * Zpos scale) (2 ^ (- e)).

(** The float nearest to the decimal [n / scale] with sign [s]: what the
    string-to-float conversion gives. *)
Definition of_decimal (s : bool) (n : Z) (scale : positive) : float :=
  match n with
  | Zpos p => F64.div (S754_finite s p 0) (S754_finite false scale 0)
  | _ => S754_zero s
  end.

(** [round(x, ndigits)] for a float [x] and [ndigits >= 0]
    ([float.__round__]): infinities and NaN round to themselves; a finite [x]
    is converted to the decimal with [ndigits] digits after the point that is
    nearest to its exact value (ties to even), and that decimal is converted
    back to the nearest float; [OverflowError] when the latter overflows. *)
Definition py_round (x : float) (ndigits : nat) : result float :=
  match x with
  | S754_finite s m e =>
      let scale := Pos.of_nat (10 ^ ndigits) in
      let r := of_decimal s (scaled_nearest m e scale) scale in
      match r with
      | S754_infinity _ => Raise OverflowError
      | _ => Ok r
      end
  | _ => Ok x
  end.

(** ** Data model *)

Module FoodItem.
Record t : Type := Build {
  name : string;
  amount_g : float;
  calories_per_100g : option float;
  calories_per_serving : option float;
  serving_size_g : option float
}.
End FoodItem.

Module CalculationRequest.
Record t : Type := Build { items : list FoodItem.t }.
End CalculationRequest.

Module ItemResult.
Record t : Type := Build {
  name : string;
  amount_g : float;
  calories : float;
  method : string;
  note : option string
}.
End ItemResult.

Module CalculationResponse.
Record t : Type := Build {
  total_calories : float;
  items : list ItemResult.t
}.
End CalculationResponse.

(** ** [calculate_calories] *)

Local Open Scope string_scope.

(** The three-way branch of the loop body: the values of [calories], [method]
    and [note] after it, from their initial values [0.0], ["unknown"] and
    [None]. *)
Definition select_method (item : FoodItem.t) : result (float * string * option string) :=
  let calories := F64.zero in
  let method := "unknown" in
  let note : option string := None in
  match FoodItem.calories_per_100g item with
  | Some per_100g =>
      calories <- py_truediv (F64.mul (FoodItem.amount_g item) per_100g) F64.hundred ;;
      Ok (calories, "per_100g", note)
  | None =>
      match FoodItem.calories_per_serving item, FoodItem.serving_size_g item with
      | Some per_serving, Some serving_size =>
          if F64.ltb F64.zero serving_size then
            servings <- py_truediv (FoodItem.amount_g item) serving_size ;;
            Ok (F64.mul servings per_serving, "per_serving", note)
          else
            Ok (calories, "insufficient_data", Some "Missing calorie data; counted as 0")
      | _, _ =>
          Ok (calories, "insufficient_data", Some "Missing calorie data; counted as 0")
      end
  end.

(** One iteration of the loop: the item's result and the new running total. *)
Definition loop_body (item : FoodItem.t) (total : float) : result (ItemResult.t * float) :=
  '(calories, method, note) <- select_method item ;;
  calories <- py_round calories 2 ;;
  let total := F64.add total calories in
  Ok (ItemResult.Build (FoodItem.name item) (FoodItem.amount_g item) calories method note,
      total).

(** The loop over [payload.items], threading [results] and [total]. *)
Fixpoint for_items (items : list FoodItem.t) (results : list ItemResult.t) (total : float)
  : result (list ItemResult.t * float) :=
  match items with
  | [] => Ok (results, total)
  | item :: rest =>
      '(r, total) <- loop_body item total ;;
      for_items rest (results ++ [r]) total
  end.

Definition calculate_calories (payload : CalculationRequest.t) : result CalculationResponse.t :=
  let results : list ItemResult.t := [] in
  let total := F64.zero in
  '(results, total) <- for_items (CalculationRequest.items payload) results total ;;
  total <- py_round total 2 ;;
  Ok (CalculationResponse.Build total results).

(** ** The request boundary

    The endpoint takes a [CalculationRequest]; [FoodItem] (main.py, lines
    18-27) declares [ge=0] on [amount_g] and on the three optional fields.
    The code that checks these constraints and answers when they fail is the
    framework's (pydantic, FastAPI); it is not under src/. *)

(** [value >= 0], the constraint [ge=0]. *)
Definition ge0 (x : float) : bool := F64.leb F64.zero x.

Definition optional_ge0 (x : option float) : bool :=
  match x with
  | Some v => ge0 v
  | None => true
  end.

(** Modelled from the spec: the check of the constraints of [FoodItem], which
    the framework runs (section 4.1, Validation: [amount_g] and all optional
    calorie and serving fields must be non-negative).  A field that is absent
    is not checked. *)
Definition validate_FoodItem (item : FoodItem.t) : bool :=
  ge0 (FoodItem.amount_g item)
  && optional_ge0 (FoodItem.calories_per_100g item)
  && optional_ge0 (FoodItem.calories_per_serving item)
  && optional_ge0 (FoodItem.serving_size_g item).

(** Modelled from the spec: the check of a request, item by item. *)
Definition validate_CalculationRequest (payload : CalculationRequest.t) : bool :=
  forallb validate_FoodItem (CalculationRequest.items payload).

(** The values of an item that fail [ge=0]. *)
Definition offending (x : option float) : list float :=
  match x with
  | Some v => if ge0 v then [] else [v]
  | None => []
  end.

Definition offending_values (item : FoodItem.t) : list float :=
  (offending (Some (FoodItem.amount_g item))
   ++ offending (FoodItem.calories_per_100g item)
   ++ offending (FoodItem.calories_per_serving item)
   ++ offending (FoodItem.serving_size_g item))%list.

(** The inputs the validation errors of a request report. *)
Definition error_inputs (payload : CalculationRequest.t) : list float :=
  flat_map offending_values (CalculationRequest.items payload).

(** A float that JSON can carry: infinities and NaN cannot be encoded. *)
Definition json_number (x : float) : bool :=
  match x with
  | S754_zero _ | S754_finite _ _ _ => true
  | _ => false
  end.

(** The answers of the endpoint: the validation error (a client error whose
    body lists the errors with their inputs), the response the calculator
    returned, which the framework then encodes, and the internal server
    error. *)
Inductive http_response : Type :=
  | ValidationError (inputs : list float)
  | Calculated (body : CalculationResponse.t)
  | InternalServerError.

(** Modelled from the spec: [POST /api/calculate], whose validation step and
    error answer are the framework's and not under src/.  Section 7: input
    validation errors are rejected at the API boundary with a client error
    before reaching the calculator; section 6: the error body is
    framework-determined.  That body carries the inputs that failed, and the
    encoder of the framework refuses a float that is not a JSON number: when
    one of these inputs is an infinity or NaN the answer is an internal server
    error, not the validation error.  What the framework does with the
    response the calculator returns is not modelled. *)
Definition post_api_calculate (payload : CalculationRequest.t) : http_response :=
  if validate_CalculationRequest payload then
    match calculate_calories payload with
    | Ok body => Calculated body
    | Raise _ => InternalServerError
    end
  else if forallb json_number (error_inputs payload) then
    ValidationError (error_inputs payload)
  else InternalServerError.




(** The value of [calories] before [round], for the comparison with a single
    rounding of the unrounded sum. *)
Definition unrounded_calories (item : FoodItem.t) : result float :=
  '(calories, _, _) <- select_method item ;; Ok calories.

Fixpoint unrounded_sum (items : list FoodItem.t) (total : float) : result float :=
  match items with
  | [] => Ok total
  | item :: rest =>
      calories <- unrounded_calories item ;;
      unrounded_sum rest (F64.add total calories)
  end.

(** [r] is the result the loop body builds for [item]: the branch gives the
    unrounded calories, the method and the note; [round] gives the calories;
    name and amount are those of the item. *)
Definition result_of (item : FoodItem.t) (r : ItemResult.t) : Prop :=
  exists c,
    select_method item = Ok (c, ItemResult.method r, ItemResult.note r) /\
    py_round c 2 = Ok (ItemResult.calories r) /\
    ItemResult.name r = FoodItem.name item /\
    ItemResult.amount_g r = FoodItem.amount_g item.

(** The running total after the results [rs], from [total]. *)
Definition running_total (rs : list ItemResult.t) (total : float) : float :=
  fold_left F64.add (map ItemResult.calories rs) total.

(** A float that is not below zero: [value >= 0], or NaN. *)
Definition ge0_or_nan (x : float) : bool := ge0 x || F64.is_nan x.

(** ** Where NaN comes from

    The arithmetic of the loop body gives NaN from operands that are not
    below zero in two ways only: an infinity times a zero, and an infinity
    divided by an infinity. *)

Definition is_inf (x : float) : bool :=
  match x with S754_infinity _ => true | _ => false end.

Definition is_zero (x : float) : bool :=
  match x with S754_zero _ => true | _ => false end.

Definition inf_times_zero (x y : float) : bool :=
  (is_inf x && is_zero y) || (is_zero x && is_inf y).

(** The item is one whose branch computes NaN: [per_100g] with one of
    [amount_g], [calories_per_100g] infinite and the other zero; [per_serving]
    with [amount_g] and [serving_size_g] both infinite, or with the number of
    servings [amount_g / serving_size_g] infinite (also by overflow) and
    [calories_per_serving] zero, or with no serving (also by underflow) and
    [calories_per_serving] infinite. *)
Definition yields_nan (item : FoodItem.t) : bool :=
  match FoodItem.calories_per_100g item with
  | Some per_100g => inf_times_zero (FoodItem.amount_g item) per_100g
  | None =>
      match FoodItem.calories_per_serving item, FoodItem.serving_size_g item with
      | Some per_serving, Some serving_size =>
          F64.ltb F64.zero serving_size
          && ((is_inf (FoodItem.amount_g item) && is_inf serving_size)
              || inf_times_zero (F64.div (FoodItem.amount_g item) serving_size)
                   per_serving)
      | _, _ => false
      end
  end.

(** ** Example requests *)

Definition apple : FoodItem.t :=
  FoodItem.Build "Apple" (F64.of_Z 150) (Some (F64.of_Z 52)) None None.

Definition bar : FoodItem.t :=
  FoodItem.Build "Bar" (F64.of_Z 40) None (Some (F64.of_Z 200)) (Some (F64.of_Z 50)).

Definition mystery : FoodItem.t :=
  FoodItem.Build "Mystery" (F64.of_Z 100) None None None.

(** [serving_size_g = 0] with [calories_per_serving] set. *)
Definition zero_serving : FoodItem.t :=
  FoodItem.Build "Zero" (F64.of_Z 40) None (Some (F64.of_Z 200)) (Some F64.zero).

(** [amount_g = -5]. *)
Definition negative_amount : FoodItem.t :=
  FoodItem.Build "Negative" (F64.of_Z (-5)) (Some (F64.of_Z 52)) None None.


(** [amount_g = 1e400], read as infinity, with [calories_per_100g = 0]. *)
Definition infinite_amount : FoodItem.t :=
  FoodItem.Build "Infinity" (S754_infinity false) (Some F64.zero) None None.

(** [0.004] calories per 100 g, 100 g eaten. *)
Definition crumb : FoodItem.t :=
  FoodItem.Build "Crumb" (F64.of_Z 100)
    (Some (F64.div (F64.of_Z 4) (F64.of_Z 1000))) None None.

(** [amount_g = 1.7e308], [calories_per_serving = 0], [serving_size_g = 0.5]:
    the number of servings overflows to infinity. *)
Definition huge_serving : FoodItem.t :=
  FoodItem.Build "Huge" (F64.of_Z (17 * 10 ^ 307)) None
    (Some F64.zero) (Some (F64.div (F64.of_Z 1) (F64.of_Z 2))).

(** ** The diagnostic endpoint [test_database]

    Python strings are sequences of Unicode code points: [len] and slices
    count code points.  A literal of the source is written as in the source
    and decoded from its UTF-8 bytes. *)

Module Str.

Definition t : Type := list N.

Fixpoint decode_utf8 (bytes : list N) : t :=
  match bytes with
  | [] => []
  | b :: rest =>
      if (b <? 128)%N then b :: decode_utf8 rest
      else if (b <? 224)%N then
        match rest with
        | c1 :: rest => ((b - 192) * 64 + (c1 - 128))%N :: decode_utf8 rest
        | _ => []
        end
      else if (b <? 240)%N then
        match rest with
        | c1 :: c2 :: rest =>
            ((b - 224) * 4096 + (c1 - 128) * 64 + (c2 - 128))%N :: decode_utf8 rest
        | _ => []
        end
      else
        match rest with
        | c1 :: c2 :: c3 :: rest =>
            ((b - 240) * 262144 + (c1 - 128) * 4096 + (c2 - 128) * 64 + (c3 - 128))%N
              :: decode_utf8 rest
        | _ => []
        end
  end.

Fixpoint bytes_of (s : string) : list N :=
  match s with
  | EmptyString => []
  | String a rest => Ascii.N_of_ascii a :: bytes_of rest
  end.

(** A string literal of the source. *)
Definition lit (s : string) : t := decode_utf8 (bytes_of s).

(** Truth value of a string: false when empty. *)
Definition truthy (s : t) : bool :=
  match s with
  | [] => false
  | _ :: _ => true
  end.

(** [s[:n]]. *)
Definition prefix (n : nat) (s : t) : t := firstn n s.

End Str.

(** An exception of class [Exception]: whether it is an [ImportError] (or a
    subclass of it) and its text [str(e)]. *)
Record PyException : Type := {
  isinstance_ImportError : bool;
  str_of : Str.t
}.

(** What the access to an attribute does: [AttributeError] (for which
    [hasattr] answers [False]), a value, or another exception, which
    [hasattr] lets through. *)
Inductive attribute : Type :=
  | NoAttribute
  | Attribute (value : Str.t)
  | AttributeRaises (e : PyException).

Inductive outcome (A : Type) : Type :=
  | Returned (a : A)
  | Raised (e : PyException).

Arguments Returned {A} a.
Arguments Raised {A} e.

(** The object bound to [db] when it is not [None]: its attribute [name] and
    what a call of [list_collection_names()] does (a list of names, as the
    database driver returns, or an exception). *)
Record Database : Type := {
  db_name : attribute;
  list_collection_names : outcome (list Str.t)
}.

(** What [from database import db] does: an exception, or [db] bound to
    [None] or to a database. *)
Inductive import_db : Type :=
  | ImportRaises (e : PyException)
  | Imported (db : option Database).

(** What the endpoint reads from outside: the [database] module and the two
    environment variables ([None] when unset). *)
Record Environment : Type := {
  from_database_import_db : import_db;
  getenv_DATABASE_URL : option Str.t;
  getenv_DATABASE_NAME : option Str.t
}.

Module Report.
Record t : Type := Build {
  backend : Str.t;
  database : Str.t;
  database_url : option Str.t;
  database_name : option Str.t;
  connection_status : Str.t;
  collections : list Str.t
}.

Definition set_database (r : t) (v : Str.t) : t :=
  Build (backend r) v (database_url r) (database_name r) (connection_status r) (collections r).
Definition set_database_url (r : t) (v : option Str.t) : t :=
  Build (backend r) (database r) v (database_name r) (connection_status r) (collections r).
Definition set_database_name (r : t) (v : option Str.t) : t :=
  Build (backend r) (database r) (database_url r) v (connection_status r) (collections r).
Definition set_connection_status (r : t) (v : Str.t) : t :=
  Build (backend r) (database r) (database_url r) (database_name r) v (collections r).
Definition set_collections (r : t) (v : list Str.t) : t :=
  Build (backend r) (database r) (database_url r) (database_name r) (connection_status r) v.
End Report.

(** [db.name if hasattr(db, 'name') else "✅ Connected"]. *)
Definition name_or_connected (db : Database) : outcome Str.t :=
  match db_name db with
  | Attribute value => Returned value
  | NoAttribute => Returned (Str.lit "✅ Connected")
  | AttributeRaises e => Raised e
  end.

(** The inner [try]: every exception is caught. *)
Definition list_collections (db : Database) (response : Report.t) : Report.t :=
  match list_collection_names db with
  | Returned collections =>
      let response := Report.set_collections response (firstn 10 collections) in
      Report.set_database response (Str.lit "✅ Connected & Working")
  | Raised e =>
      Report.set_database response
        (Str.lit "⚠️  Connected but Error: " ++ Str.prefix 50 (str_of e))%list
  end.

(** The body of the outer [try]: the response as it is when the body ends or
    raises, and the exception raised, if any. *)
Definition try_import (env : Environment) (response : Report.t)
  : Report.t * option PyException :=
  match from_database_import_db env with
  | ImportRaises e => (response, Some e)
  | Imported (Some db) =>
      let response := Report.set_database response (Str.lit "✅ Available") in
      let response := Report.set_database_url response (Some (Str.lit "✅ Configured")) in
      match name_or_connected db with
      | Raised e => (response, Some e)
      | Returned name =>
          let response := Report.set_database_name response (Some name) in
          let response := Report.set_connection_status response (Str.lit "Connected") in
          (list_collections db response, None)
      end
  | Imported None =>
      (Report.set_database response (Str.lit "⚠️  Available but not initialized"), None)
  end.

(** ["✅ Set" if os.getenv(...) else "❌ Not Set"]. *)
Definition set_or_not (variable : option Str.t) : Str.t :=
  match variable with
  | Some value => if Str.truthy value then Str.lit "✅ Set" else Str.lit "❌ Not Set"
  | None => Str.lit "❌ Not Set"
  end.

Definition test_database (env : Environment) : Report.t :=
  let response :=
    Report.Build (Str.lit "✅ Running") (Str.lit "❌ Not Available") None None
      (Str.lit "Not Connected") [] in
  let '(response, raised) := try_import env response in
  let response :=
    match raised with
    | None => response
    | Some e =>
        if isinstance_ImportError e then
          Report.set_database response
            (Str.lit "❌ Database module not found (run enable-database first)")
        else
          Report.set_database response
            (Str.lit "❌ Error: " ++ Str.prefix 50 (str_of e))%list
    end in
  let response := Report.set_database_url response (Some (set_or_not (getenv_DATABASE_URL env))) in
  let response := Report.set_database_name response (Some (set_or_not (getenv_DATABASE_NAME env))) in
  response.

(** The response with the fields that do not depend on the database module,
    and the text the handlers of the outer [try] write. *)
Definition report (env : Environment) (database connection_status : Str.t)
  (collections : list Str.t) : Report.t :=
  Report.Build (Str.lit "✅ Running") database
    (Some (set_or_not (getenv_DATABASE_URL env)))
    (Some (set_or_not (getenv_DATABASE_NAME env)))
    connection_status collections.

Definition handler_text (e : PyException) : Str.t :=
  if isinstance_ImportError e then
    Str.lit "❌ Database module not found (run enable-database first)"
  else (Str.lit "❌ Error: " ++ Str.prefix 50 (str_of e))%list.

(** What the endpoint met, in the order of the code. *)
Inductive met (env : Environment) : Type :=
  | MetImportRaises (e : PyException)
      (H : from_database_import_db env = ImportRaises e)
  | MetNone (H : from_database_import_db env = Imported None)
  | MetNameRaises (db : Database) (e : PyException)
      (H : from_database_import_db env = Imported (Some db))
      (Hn : db_name db = AttributeRaises e)
  | MetListed (db : Database) (names : list Str.t)
      (H : from_database_import_db env = Imported (Some db))
      (Hn : forall e, db_name db <> AttributeRaises e)
      (Hl : list_collection_names db = Returned names)
  | MetListingRaises (db : Database) (e : PyException)
      (H : from_database_import_db env = Imported (Some db))
      (Hn : forall e, db_name db <> AttributeRaises e)
      (Hl : list_collection_names db = Raised e).

(** Finite floats. *)
Definition finite (x : float) : bool :=
  match x with
  | S754_zero _ | S754_finite _ _ _ => true
  | _ => false
  end.

(** The item has no usable calorie data. *)
Definition no_calorie_data (item : FoodItem.t) : Prop :=
  FoodItem.calories_per_100g item = None /\
  (FoodItem.calories_per_serving item = None \/
   FoodItem.serving_size_g item = None \/
   exists s, FoodItem.serving_size_g item = Some s /\ F64.ltb F64.zero s = false).

(** The item has usable per-serving data. *)
Definition usable_per_serving (item : FoodItem.t) : Prop :=
  exists c s,
    FoodItem.calories_per_serving item = Some c /\
    FoodItem.serving_size_g item = Some s /\
    F64.ltb F64.zero s = true.

(** A database with twelve collections, and one whose listing fails with a
    text of sixty characters. *)
Definition twelve_collections : list Str.t :=
  map (fun c => [c]) [97; 98; 99; 100; 101; 102; 103; 104; 105; 106; 107; 108]%N.

Definition working_db : Database :=
  {| db_name := Attribute (Str.lit "calories");
     list_collection_names := Returned twelve_collections |}.

Definition failing_db : Database :=
  {| db_name := NoAttribute;
     list_collection_names :=
       Raised {| isinstance_ImportError := false; str_of := repeat 120%N 60 |} |}.

Definition env_with (db : import_db) : Environment :=
  {| from_database_import_db := db;
     getenv_DATABASE_URL := Some (Str.lit "mongodb://localhost");
     getenv_DATABASE_NAME := None |}.

(** The response to the request made of [huge_serving] alone. *)
Definition huge_response : CalculationResponse.t :=
  CalculationResponse.Build S754_nan
    [ItemResult.Build "Huge" (FoodItem.amount_g huge_serving) S754_nan "per_serving" None].

(** Nothing eaten of an apple. *)
Definition no_apple : FoodItem.t :=
  FoodItem.Build "Apple" F64.zero (Some (F64.of_Z 52)) None None.

(** The exception of an import when there is no [database] module. *)
Definition module_not_found : PyException :=
  {| isinstance_ImportError := true;
     str_of := Str.lit "No module named 'database'" |}.

(** * Properties *)

Local Open Scope list_scope.
Local Open Scope Z_scope.

(** ** Number of binary digits *)

Lemma digits2_pos_size (p : positive) : digits2_pos p = Pos.size p.
Proof. induction p; simpl; congruence. Qed.

Lemma Zdigits2_log2 (z : Z) : 0 < z -> Zdigits2 z = Z.log2 z + 1.
Proof.
  destruct z as [|p|p]; try lia.
  intros _. simpl. rewrite digits2_pos_size.
  destruct p; simpl; lia.
Qed.

Lemma Zdigits2_nonneg (z : Z) : 0 <= z -> 0 <= Zdigits2 z.
Proof. destruct z; simpl; lia. Qed.

Lemma Zdigits2_le (a b : Z) : 0 <= a -> a <= b -> Zdigits2 a <= Zdigits2 b.
Proof.
  intros Ha Hab.
  destruct (Z.eq_dec a 0) as [->|Hn].
  - simpl. apply Zdigits2_nonneg. lia.
  - rewrite !Zdigits2_log2 by lia.
    apply Z.add_le_mono_r, Z.log2_le_mono, Hab.
Qed.

Lemma Zdigits2_mul_pow2 (a k : Z) :
  0 < a -> 0 <= k -> Zdigits2 (a * 2 ^ k) = Zdigits2 a + k.
Proof.
  intros Ha Hk.
  assert (0 < 2 ^ k) by (apply Z.pow_pos_nonneg; lia).
  rewrite !Zdigits2_log2 by nia.
  rewrite Z.log2_mul_pow2 by lia. lia.
Qed.

Lemma Zdigits2_succ (a : Z) : 0 <= a -> Zdigits2 (a + 1) <= Zdigits2 a + 1.
Proof.
  intros Ha.
  destruct (Z.eq_dec a 0) as [->|Hn]; [simpl; lia|].
  rewrite !Zdigits2_log2 by lia.
  pose proof (Z.log2_succ_le a). unfold Z.succ in *. lia.
Qed.

Lemma Zdigits2_bound (a k : Z) : 0 <= a -> 0 <= k -> a < 2 ^ k -> Zdigits2 a <= k.
Proof.
  intros Ha Hk Hlt.
  destruct (Z.eq_dec a 0) as [->|Hn]; [simpl; lia|].
  rewrite Zdigits2_log2 by lia.
  apply Z.log2_lt_pow2 in Hlt; lia.
Qed.

(** ** Right shifts and rounding of the mantissa *)

Lemma iter_pos_invariant {A : Type} (f : A -> A) (P : Z -> A -> Prop) :
  (forall k x, 0 <= k -> P k x -> P (k + 1) (f x)) ->
  forall p k x, 0 <= k -> P k x -> P (k + Zpos p) (iter_pos f p x).
Proof.
  intros Hstep. induction p as [p IH|p IH|]; intros k x Hk Hx; simpl.
  - replace (k + Zpos p~1) with (k + 1 + Zpos p + Zpos p) by lia.
    apply IH; [lia|]. apply IH; [lia|]. now apply Hstep.
  - replace (k + Zpos p~0) with (k + Zpos p + Zpos p) by lia.
    apply IH; [lia|]. now apply IH.
  - now apply Hstep.
Qed.

Lemma shr_1_digits (x : shr_record) :
  0 <= shr_m x ->
  0 <= shr_m (shr_1 x) /\
  Zdigits2 (shr_m (shr_1 x)) = Z.max 0 (Zdigits2 (shr_m x) - 1).
Proof.
  destruct x as [m r s].
  destruct m as [|[p|p|]|p]; cbn [shr_1 shr_m Zdigits2 digits2_pos]; lia.
Qed.

Lemma shr_iter_digits (p : positive) (x : shr_record) :
  0 <= shr_m x ->
  0 <= shr_m (iter_pos shr_1 p x) /\
  Zdigits2 (shr_m (iter_pos shr_1 p x)) = Z.max 0 (Zdigits2 (shr_m x) - Zpos p).
Proof.
  intros Hx.
  pose (P := fun (k : Z) (y : shr_record) =>
               0 <= shr_m y /\
               Zdigits2 (shr_m y) = Z.max 0 (Zdigits2 (shr_m x) - k)).
  assert (H : P (0 + Zpos p) (iter_pos shr_1 p x)).
  { apply iter_pos_invariant; [|lia|].
    - intros k y Hk [Hy Hd]. destruct (shr_1_digits y Hy) as [Hy' Hd'].
      split; [exact Hy'|]. rewrite Hd', Hd. lia.
    - split; [exact Hx|]. pose proof (Zdigits2_nonneg _ Hx). lia. }
  exact H.
Qed.

Lemma shr_record_of_loc_m (m : Z) (l : location) : shr_m (shr_record_of_loc m l) = m.
Proof. destruct l as [|[]]; reflexivity. Qed.

(** What [shr_fexp] does to the exponent and to the size of the mantissa. *)
Lemma shr_fexp_spec (m e : Z) (l : location) :
  0 <= m ->
  let r := shr_fexp F64.prec F64.emax m e l in
  snd r = Z.max e (fexp F64.prec F64.emax (Zdigits2 m + e)) /\
  0 <= shr_m (fst r) /\
  Zdigits2 (shr_m (fst r)) = Z.max 0 (Zdigits2 m - (snd r - e)).
Proof.
  intros Hm. unfold shr_fexp, shr.
  pose proof (Zdigits2_nonneg _ Hm) as Hd.
  destruct (fexp F64.prec F64.emax (Zdigits2 m + e) - e) as [|p|p] eqn:Hk; simpl.
  - rewrite shr_record_of_loc_m. lia.
  - destruct (shr_iter_digits p (shr_record_of_loc m l)) as [H1 H2].
    { now rewrite shr_record_of_loc_m. }
    rewrite shr_record_of_loc_m in H2. lia.
  - rewrite shr_record_of_loc_m. lia.
Qed.

Lemma round_nearest_even_bounds (m : Z) (l : location) :
  m <= round_nearest_even m l <= m + 1.
Proof.
  destruct l as [|[]]; simpl; try lia. destruct (Z.even m); lia.
Qed.

(** The result of a rounding is a binary64 number. *)
Lemma binary_round_aux_fits (s : bool) (m e : Z) (l : location) :
  0 <= m -> F64.fits (binary_round_aux F64.prec F64.emax s m e l).
Proof.
  intros Hm. unfold binary_round_aux.
  pose proof (shr_fexp_spec m e l Hm) as H1. cbv zeta in H1.
  destruct (shr_fexp F64.prec F64.emax m e l) as [mrs1 e1]. cbn [fst snd] in H1.
  destruct H1 as [He1 [Hm1 Hd1]].
  set (M := round_nearest_even (shr_m mrs1) (loc_of_shr_record mrs1)).
  assert (HM : 0 <= M).
  { pose proof (round_nearest_even_bounds (shr_m mrs1) (loc_of_shr_record mrs1)).
    unfold M. lia. }
  pose proof (shr_fexp_spec M e1 loc_Exact HM) as H2. cbv zeta in H2.
  destruct (shr_fexp F64.prec F64.emax M e1 loc_Exact) as [mrs2 e2]. cbn [fst snd] in H2.
  destruct H2 as (He2 & Hm2 & Hd2).
  destruct (shr_m mrs2) as [|p|p] eqn:Hp; try exact I.
  destruct (e2 <=? F64.emax - F64.prec) eqn:Hle; try exact I.
  apply Z.leb_le in Hle. split; [|exact Hle].
  cbn [Zdigits2] in Hd2. unfold fexp, emin, F64.prec, F64.emax in *. lia.
Qed.

(** A rounding of a value below [2^1023] does not overflow. *)
Lemma binary_round_aux_no_overflow (s : bool) (m e : Z) (l : location) :
  0 <= m -> Zdigits2 m + e <= 1023 -> e <= 971 ->
  forall s', binary_round_aux F64.prec F64.emax s m e l <> S754_infinity s'.
Proof.
  intros Hm Hd He s'. unfold binary_round_aux.
  pose proof (shr_fexp_spec m e l Hm) as H1. cbv zeta in H1.
  destruct (shr_fexp F64.prec F64.emax m e l) as [mrs1 e1]. cbn [fst snd] in H1.
  destruct H1 as (He1 & Hm1 & Hd1).
  set (M := round_nearest_even (shr_m mrs1) (loc_of_shr_record mrs1)).
  pose proof (round_nearest_even_bounds (shr_m mrs1) (loc_of_shr_record mrs1)) as HM.
  fold M in HM.
  assert (HdM : Zdigits2 M <= Zdigits2 (shr_m mrs1) + 1).
  { etransitivity; [apply (Zdigits2_le M (shr_m mrs1 + 1)); lia|].
    now apply Zdigits2_succ. }
  pose proof (shr_fexp_spec M e1 loc_Exact ltac:(lia)) as H2. cbv zeta in H2.
  destruct (shr_fexp F64.prec F64.emax M e1 loc_Exact) as [mrs2 e2]. cbn [fst snd] in H2.
  destruct H2 as (He2 & Hm2 & Hd2).
  assert (Hle : e2 <= F64.emax - F64.prec).
  { unfold fexp, emin, F64.prec, F64.emax in *. lia. }
  apply Z.leb_le in Hle. rewrite Hle.
  destruct (shr_m mrs2); discriminate.
Qed.

(** Shifting out zero bits is exact. *)
Lemma shr_iter_exact (a : Z) (p : positive) (j : Z) :
  0 < a -> Zpos p <= j ->
  iter_pos shr_1 p (Build_shr_record (a * 2 ^ j) false false)
  = Build_shr_record (a * 2 ^ (j - Zpos p)) false false.
Proof.
  intros Ha Hj.
  pose (P := fun (k : Z) (y : shr_record) =>
               k <= j -> y = Build_shr_record (a * 2 ^ (j - k)) false false).
  assert (H : P (0 + Zpos p) (iter_pos shr_1 p (Build_shr_record (a * 2 ^ j) false false))).
  { apply iter_pos_invariant; [|lia|].
    - intros k y Hk Hy Hk'. rewrite Hy by lia.
      replace (j - k) with (Z.succ (j - (k + 1))) by lia.
      rewrite Z.pow_succ_r by lia.
      assert (Hpos : 0 < a * 2 ^ (j - (k + 1))).
      { apply Z.mul_pos_pos; [exact Ha|]. apply Z.pow_pos_nonneg; lia. }
      destruct (a * 2 ^ (j - (k + 1))) as [|q|q] eqn:Hq; try lia.
      replace (a * (2 * 2 ^ (j - (k + 1)))) with (Zpos q~0) by lia.
      reflexivity.
    - intros _. now rewrite Z.sub_0_r. }
  apply H. lia.
Qed.

Lemma shr_fexp_exact (a j e : Z) :
  0 < a -> 0 <= j ->
  let k := Z.max 0 (fexp F64.prec F64.emax (Zdigits2 (a * 2 ^ j) + e) - e) in
  k <= j ->
  shr_fexp F64.prec F64.emax (a * 2 ^ j) e loc_Exact
  = (Build_shr_record (a * 2 ^ (j - k)) false false, e + k).
Proof.
  intros Ha Hj k Hk. unfold shr_fexp, shr. cbn [shr_record_of_loc].
  subst k.
  destruct (fexp F64.prec F64.emax (Zdigits2 (a * 2 ^ j) + e) - e) as [|p|p] eqn:Hd.
  - rewrite Z.max_id, Z.sub_0_r, Z.add_0_r. reflexivity.
  - rewrite Z.max_r in * by lia. now rewrite shr_iter_exact by lia.
  - rewrite Z.max_l by lia. rewrite Z.sub_0_r, Z.add_0_r. reflexivity.
Qed.

(** Rounding a value that is a binary64 number already does not overflow. *)
Lemma binary_round_aux_exact_no_overflow (s : bool) (a : positive) (j e : Z) :
  0 <= j -> Zdigits2 (Zpos a) <= 53 -> -1074 <= e + j <= 971 ->
  forall s', binary_round_aux F64.prec F64.emax s (Zpos a * 2 ^ j) e loc_Exact
             <> S754_infinity s'.
Proof.
  intros Hj Ha He s'. unfold binary_round_aux.
  assert (Hdig : Zdigits2 (Zpos a * 2 ^ j) = Zdigits2 (Zpos a) + j)
    by (apply Zdigits2_mul_pow2; lia).
  set (k := Z.max 0 (fexp F64.prec F64.emax (Zdigits2 (Zpos a * 2 ^ j) + e) - e)).
  assert (Hk : 0 <= k <= j).
  { subst k. rewrite Hdig. unfold fexp, emin, F64.prec, F64.emax. lia. }
  rewrite (shr_fexp_exact (Zpos a) j e) by (fold k; lia). fold k.
  cbn [shr_m loc_of_shr_record round_nearest_even].
  assert (Hpos : 0 < Zpos a * 2 ^ (j - k)).
  { apply Z.mul_pos_pos; [lia|]. apply Z.pow_pos_nonneg; lia. }
  pose proof (shr_fexp_spec (Zpos a * 2 ^ (j - k)) (e + k) loc_Exact ltac:(lia)) as H2.
  cbv zeta in H2.
  destruct (shr_fexp F64.prec F64.emax (Zpos a * 2 ^ (j - k)) (e + k) loc_Exact)
    as [mrs2 e2]. cbn [fst snd] in H2.
  destruct H2 as [He2 [Hm2 Hd2]].
  rewrite Zdigits2_mul_pow2 in He2 by lia.
  assert (Hle : e2 <= F64.emax - F64.prec).
  { subst k. rewrite Hdig in *. unfold fexp, emin, F64.prec, F64.emax in *. lia. }
  apply Z.leb_le in Hle. rewrite Hle.
  destruct (shr_m mrs2); discriminate.
Qed.

(** ** Division of integers given as floats, and [round] *)

Lemma Zdigits2_lt_pow2 (a k : Z) : 0 < a -> Zdigits2 a <= k -> a < 2 ^ k.
Proof.
  intros Ha Hd. rewrite Zdigits2_log2 in Hd by lia.
  apply Z.log2_lt_pow2; lia.
Qed.

Lemma SFdiv_core_binary_integers (n d : positive) :
  exists sh, 0 <= sh /\
    SFdiv_core_binary F64.prec F64.emax (Zpos n) 0 (Zpos d) 0
    = ((Zpos n * 2 ^ sh) / Zpos d, - sh,
       new_location (Zpos d) ((Zpos n * 2 ^ sh) mod Zpos d)).
Proof.
  unfold SFdiv_core_binary.
  set (F := fexp F64.prec F64.emax
              (Zdigits2 (Zpos n) + 0 - (Zdigits2 (Zpos d) + 0))).
  replace (0 - 0) with 0 by reflexivity.
  set (e' := Z.min F 0).
  exists (- e'). split; [subst e'; lia|].
  rewrite Z.opp_involutive.
  replace (match 0 - e' with
           | 0 => Zpos n
           | Zpos _ => Z.shiftl (Zpos n) (0 - e')
           | Zneg _ => 0
           end) with (Zpos n * 2 ^ (- e')).
  - unfold Z.div, Z.modulo.
    destruct (Z.div_eucl (Zpos n * 2 ^ (- e')) (Zpos d)) as [q r]. reflexivity.
  - destruct (0 - e') as [|p|p] eqn:Hs.
    + replace (- e') with 0 by lia. simpl (2 ^ 0). lia.
    + rewrite Z.shiftl_mul_pow2 by lia. f_equal. f_equal. lia.
    + subst e'. lia.
Qed.

(** The nearest float of a quotient below [2^1023] is not an infinity. *)
Lemma div_integers_no_overflow (s : bool) (n d : positive) :
  Zdigits2 (Zpos n) <= 1023 ->
  forall s', F64.div (S754_finite s n 0) (S754_finite false d 0) <> S754_infinity s'.
Proof.
  intros Hn s'. unfold F64.div, SFdiv.
  destruct (SFdiv_core_binary_integers n d) as (sh & Hsh & ->).
  assert (H2 : 0 < 2 ^ sh) by (apply Z.pow_pos_nonneg; lia).
  assert (Hq : 0 <= Zpos n * 2 ^ sh / Zpos d) by (apply Z.div_pos; lia).
  apply binary_round_aux_no_overflow; [exact Hq| |lia].
  assert (Hle : Zpos n * 2 ^ sh / Zpos d <= Zpos n * 2 ^ sh).
  { apply Z.div_le_upper_bound; nia. }
  pose proof (Zdigits2_le _ _ Hq Hle) as Hd.
  rewrite Zdigits2_mul_pow2 in Hd by lia. lia.
Qed.

(** The nearest float of [m * 2^e] given as the decimal [m * 2^e * d / d]
    is not an infinity when [m * 2^e] is a binary64 number. *)
Lemma div_integers_exact_no_overflow (s : bool) (n m d : positive) (e : Z) :
  0 <= e <= 971 -> Zdigits2 (Zpos m) <= 53 ->
  Zpos n = Zpos m * Zpos d * 2 ^ e ->
  forall s', F64.div (S754_finite s n 0) (S754_finite false d 0) <> S754_infinity s'.
Proof.
  intros He Hm Hn s'. unfold F64.div, SFdiv.
  destruct (SFdiv_core_binary_integers n d) as (sh & Hsh & ->).
  replace (Zpos n * 2 ^ sh) with (Zpos m * 2 ^ (e + sh) * Zpos d)
    by (rewrite Hn, Z.pow_add_r by lia; ring).
  rewrite Z.div_mul, Z.mod_mul by lia.
  replace (new_location (Zpos d) 0) with loc_Exact
    by (unfold new_location; destruct (Z.even (Zpos d)); reflexivity).
  apply binary_round_aux_exact_no_overflow; lia.
Qed.

Lemma div_half_even_bounds (a b : Z) :
  0 <= a -> 0 < b -> 0 <= div_half_even a b <= a + 1.
Proof.
  intros Ha Hb. unfold div_half_even.
  assert (H0 : 0 <= a / b) by (apply Z.div_pos; lia).
  assert (H1 : a / b <= a) by (apply Z.div_le_upper_bound; nia).
  destruct (2 * (a mod b) ?= b); [destruct (Z.even (a / b))| |]; lia.
Qed.

(** [round(x, 2)] does not raise on a binary64 number. *)
Lemma py_round_2_total (x : float) :
  F64.fits x -> exists y, py_round x 2 = Ok y.
Proof.
  destruct x as [s|s| |s m e]; try (intros _; eexists; reflexivity).
  intros [Hm He]. unfold py_round.
  change (Pos.of_nat (10 ^ 2)) with 100%positive. cbv zeta.
  assert (Hni : forall s', of_decimal s (scaled_nearest m e 100) 100 <> S754_infinity s').
  { unfold of_decimal, scaled_nearest. unfold F64.prec, F64.emax in *.
    destruct (0 <=? e) eqn:Hpos.
    - apply Z.leb_le in Hpos.
      assert (H2 : 0 < 2 ^ e) by (apply Z.pow_pos_nonneg; lia).
      destruct (Zpos m * 100 * 2 ^ e) as [|n|n] eqn:Hn; try discriminate.
      apply (div_integers_exact_no_overflow s n m 100 e); [lia|exact Hm|lia].
    - apply Z.leb_gt in Hpos.
      assert (H2 : 0 < 2 ^ (- e)) by (apply Z.pow_pos_nonneg; lia).
      pose proof (div_half_even_bounds (Zpos m * 100) (2 ^ (- e)) ltac:(lia) H2) as Hb.
      destruct (div_half_even (Zpos m * 100) (2 ^ (- e))) as [|n|n]; try discriminate.
      apply div_integers_no_overflow.
      pose proof (Zdigits2_lt_pow2 (Zpos m) 53 ltac:(lia) Hm) as Hlt.
      etransitivity; [apply (Zdigits2_bound (Zpos n) 61); lia|lia]. }
  destruct (of_decimal s (scaled_nearest m e 100) 100) as [s'|s'| |s' m' e'];
    try (eexists; reflexivity).
  exfalso. now apply (Hni s').
Qed.

(** ** The arithmetic stays within binary64 *)

Lemma SFdiv_core_binary_nonneg (mx my : positive) (ex ey : Z) :
  0 <= fst (fst (SFdiv_core_binary F64.prec F64.emax (Zpos mx) ex (Zpos my) ey)).
Proof.
  unfold SFdiv_core_binary.
  set (sh := ex - ey - _).
  set (m' := match sh with 0 => Zpos mx | Zpos _ => Z.shiftl (Zpos mx) sh | Zneg _ => 0 end).
  assert (Hm' : 0 <= m').
  { subst m'. destruct sh; try lia. apply Z.shiftl_nonneg. lia. }
  pose proof (Z.div_pos m' (Zpos my) Hm' ltac:(lia)) as Hq.
  unfold Z.div in Hq. destruct (Z.div_eucl m' (Zpos my)) as [q r]. exact Hq.
Qed.

Lemma mul_fits (x y : float) : F64.fits (F64.mul x y).
Proof.
  destruct x, y; try exact I. unfold F64.mul, SFmul.
  apply binary_round_aux_fits. lia.
Qed.

Lemma div_fits (x y : float) : F64.fits (F64.div x y).
Proof.
  destruct x as [| | |sx mx ex], y as [| | |sy my ey]; try exact I.
  unfold F64.div, SFdiv.
  pose proof (SFdiv_core_binary_nonneg mx my ex ey) as Hq.
  destruct (SFdiv_core_binary F64.prec F64.emax (Zpos mx) ex (Zpos my) ey) as [[mz ez] lz].
  apply binary_round_aux_fits. exact Hq.
Qed.

Lemma py_round_fits (x y : float) (ndigits : nat) :
  py_round x ndigits = Ok y -> F64.fits y.
Proof.
  destruct x as [s|s| |s m e]; simpl; try (intros [= <-]; exact I).
  unfold of_decimal.
  destruct (scaled_nearest m e (Pos.of_nat (10 ^ ndigits))) as [|n|n];
    try (intros [= <-]; exact I).
  pose proof (div_fits (S754_finite s n 0)
                (S754_finite false (Pos.of_nat (10 ^ ndigits)) 0)) as Hf.
  destruct (F64.div _ _); intros [= <-]; exact Hf.
Qed.

Lemma add_fits (x y : float) : F64.fits x -> F64.fits y -> F64.fits (F64.add x y).
Proof.
  intros Hx Hy.
  destruct x as [[]|[]| |sx mx ex], y as [[]|[]| |sy my ey];
    try exact I; try exact Hx; try exact Hy.
  unfold F64.add, SFadd, binary_normalize.
  destruct (_ + _) as [|m|m]; try exact I;
    unfold binary_round;
    destruct (shl_align _ _ _) as [mz ez]; apply binary_round_aux_fits; lia.
Qed.


(** ** The loop body *)

Lemma hundred_nonzero : F64.eqb F64.hundred F64.zero = false.
Proof. reflexivity. Qed.

Lemma positive_nonzero (x : float) :
  F64.ltb F64.zero x = true -> F64.eqb x F64.zero = false.
Proof. destruct x as [[]|[]| |[] m e]; cbn; congruence. Qed.

Lemma leb_zero_not_positive (x : float) :
  F64.leb x F64.zero = true -> F64.ltb F64.zero x = false.
Proof. destruct x as [[]|[]| |[] m e]; cbn; congruence. Qed.

Lemma select_method_per_100g (item : FoodItem.t) (c : float) :
  FoodItem.calories_per_100g item = Some c ->
  select_method item
  = Ok (F64.div (F64.mul (FoodItem.amount_g item) c) F64.hundred, "per_100g", None).
Proof.
  intros H. unfold select_method. rewrite H.
  unfold py_truediv. rewrite hundred_nonzero. reflexivity.
Qed.

Lemma select_method_per_serving (item : FoodItem.t) (c s : float) :
  FoodItem.calories_per_100g item = None ->
  FoodItem.calories_per_serving item = Some c ->
  FoodItem.serving_size_g item = Some s ->
  F64.ltb F64.zero s = true ->
  select_method item
  = Ok (F64.mul (F64.div (FoodItem.amount_g item) s) c, "per_serving", None).
Proof.
  intros H1 H2 H3 Hs. unfold select_method. rewrite H1, H2, H3, Hs.
  unfold py_truediv. rewrite (positive_nonzero s Hs). reflexivity.
Qed.

Lemma select_method_insufficient_data (item : FoodItem.t) :
  FoodItem.calories_per_100g item = None ->
  (FoodItem.calories_per_serving item = None \/
   FoodItem.serving_size_g item = None \/
   exists s, FoodItem.serving_size_g item = Some s /\ F64.ltb F64.zero s = false) ->
  select_method item
  = Ok (F64.zero, "insufficient_data", Some "Missing calorie data; counted as 0").
Proof.
  intros H1 H. unfold select_method. rewrite H1.
  destruct H as [H|[H|(s & H & Hs)]]; rewrite H.
  - reflexivity.
  - now destruct (FoodItem.calories_per_serving item).
  - rewrite Hs. now destruct (FoodItem.calories_per_serving item).
Qed.

(** The three branches are exhaustive and none of them raises. *)
Lemma select_method_total (item : FoodItem.t) :
  exists c m n,
    select_method item = Ok (c, m, n) /\ F64.fits c /\
    (m = "per_100g" \/ m = "per_serving" \/ m = "insufficient_data").
Proof.
  destruct (FoodItem.calories_per_100g item) as [c|] eqn:H1.
  { rewrite (select_method_per_100g item c H1).
    do 3 eexists. split; [reflexivity|]. split; [apply div_fits|tauto]. }
  destruct (FoodItem.calories_per_serving item) as [c|] eqn:H2;
    [destruct (FoodItem.serving_size_g item) as [s|] eqn:H3;
     [destruct (F64.ltb F64.zero s) eqn:Hs|]|].
  - rewrite (select_method_per_serving item c s H1 H2 H3 Hs).
    do 3 eexists. split; [reflexivity|]. split; [apply mul_fits|tauto].
  - rewrite select_method_insufficient_data by (eauto 6).
    do 3 eexists. split; [reflexivity|]. split; [exact I|tauto].
  - rewrite select_method_insufficient_data by auto.
    do 3 eexists. split; [reflexivity|]. split; [exact I|tauto].
  - rewrite select_method_insufficient_data by auto.
    do 3 eexists. split; [reflexivity|]. split; [exact I|tauto].
Qed.

Lemma loop_body_result (item : FoodItem.t) :
  exists r, result_of item r /\
    forall total, loop_body item total = Ok (r, F64.add total (ItemResult.calories r)).
Proof.
  destruct (select_method_total item) as (c & m & n & Hsel & Hfit & _).
  destruct (py_round_2_total c Hfit) as [c' Hc'].
  exists (ItemResult.Build (FoodItem.name item) (FoodItem.amount_g item) c' m n).
  split.
  - exists c. cbn. auto.
  - intros total. unfold loop_body. rewrite Hsel. cbn. rewrite Hc'. reflexivity.
Qed.

Lemma result_of_fits (item : FoodItem.t) (r : ItemResult.t) :
  result_of item r -> F64.fits (ItemResult.calories r).
Proof. intros (c & _ & Hc & _). exact (py_round_fits _ _ _ Hc). Qed.

(** ** The loop and the response *)

Lemma for_items_spec (items : list FoodItem.t) :
  forall results total, exists rs,
    Forall2 result_of items rs /\
    for_items items results total = Ok (results ++ rs, running_total rs total).
Proof.
  induction items as [|item rest IH]; intros results total.
  - exists []. split; [constructor|]. cbn. now rewrite app_nil_r.
  - destruct (loop_body_result item) as (r & Hr & Hbody).
    destruct (IH (results ++ [r]) (F64.add total (ItemResult.calories r)))
      as (rs & Hrs & Hloop).
    exists (r :: rs). split; [now constructor|].
    cbn [for_items]. rewrite Hbody. cbn. rewrite Hloop.
    now rewrite <- app_assoc.
Qed.

Lemma running_total_fits (rs : list ItemResult.t) :
  forall total, F64.fits total ->
  Forall (fun r => F64.fits (ItemResult.calories r)) rs ->
  F64.fits (running_total rs total).
Proof.
  induction rs as [|r rs IH]; intros total Ht Hrs; [exact Ht|].
  inversion Hrs; subst. apply IH; [|assumption].
  now apply add_fits.
Qed.

Lemma Forall2_result_of_fits (items : list FoodItem.t) (rs : list ItemResult.t) :
  Forall2 result_of items rs -> Forall (fun r => F64.fits (ItemResult.calories r)) rs.
Proof.
  induction 1; constructor; eauto using result_of_fits.
Qed.

(** [calculate_calories] returns, with one result per item, in order, and
    the rounded running total. *)
Lemma calculate_calories_spec (payload : CalculationRequest.t) :
  exists resp,
    calculate_calories payload = Ok resp /\
    Forall2 result_of (CalculationRequest.items payload) (CalculationResponse.items resp) /\
    py_round (running_total (CalculationResponse.items resp) F64.zero) 2
    = Ok (CalculationResponse.total_calories resp).
Proof.
  destruct (for_items_spec (CalculationRequest.items payload) [] F64.zero)
    as (rs & Hrs & Hloop).
  destruct (py_round_2_total (running_total rs F64.zero)) as [t Ht].
  { apply running_total_fits; [exact I|]. now apply Forall2_result_of_fits in Hrs. }
  exists (CalculationResponse.Build t rs). split; [|split].
  - unfold calculate_calories. rewrite Hloop. cbn. rewrite Ht. reflexivity.
  - exact Hrs.
  - exact Ht.
Qed.

Lemma Forall2_nth_error {A B : Type} (R : A -> B -> Prop) (l : list A) (l' : list B) :
  Forall2 R l l' ->
  forall i a, nth_error l i = Some a -> exists b, nth_error l' i = Some b /\ R a b.
Proof.
  induction 1 as [|a0 b0 l l' Hab _ IH]; intros [|i] a Hi; try discriminate.
  - injection Hi as <-. exists b0. split; [reflexivity|exact Hab].
  - now apply IH.
Qed.

(** ** Signs *)

(** Case analysis on the shape and the sign of two floats, closing the cases
    the hypotheses [Hx], [Hy] exclude and those that compute. *)
Ltac float_cases2 x y Hx Hy :=
  destruct x as [[]|[]| |[] ? ?], y as [[]|[]| |[] ? ?];
  try discriminate Hx; try discriminate Hy; try reflexivity.

Lemma binary_round_aux_ge0_or_nan (m e : Z) (l : location) :
  ge0_or_nan (binary_round_aux F64.prec F64.emax false m e l) = true.
Proof.
  unfold binary_round_aux.
  destruct (shr_fexp F64.prec F64.emax m e l) as [mrs1 e1].
  destruct (shr_fexp F64.prec F64.emax _ e1 loc_Exact) as [mrs2 e2].
  destruct (shr_m mrs2); try reflexivity.
  destruct (e2 <=? F64.emax - F64.prec); reflexivity.
Qed.

Lemma mul_ge0_or_nan (x y : float) :
  ge0_or_nan x = true -> ge0_or_nan y = true -> ge0_or_nan (F64.mul x y) = true.
Proof.
  intros Hx Hy. float_cases2 x y Hx Hy.
  apply binary_round_aux_ge0_or_nan.
Qed.

Lemma div_ge0_or_nan (x y : float) :
  ge0_or_nan x = true -> F64.ltb F64.zero y = true -> ge0_or_nan (F64.div x y) = true.
Proof.
  intros Hx Hy. float_cases2 x y Hx Hy.
  unfold F64.div, SFdiv.
  destruct (SFdiv_core_binary F64.prec F64.emax _ _ _ _) as [[mz ez] lz].
  apply binary_round_aux_ge0_or_nan.
Qed.

Lemma add_ge0_or_nan (x y : float) :
  ge0_or_nan x = true -> ge0_or_nan y = true -> ge0_or_nan (F64.add x y) = true.
Proof.
  intros Hx Hy. float_cases2 x y Hx Hy.
  unfold F64.add, SFadd, binary_normalize, cond_Zopp.
  destruct (Zpos _ + Zpos _) as [|n|n] eqn:Hn; try reflexivity; try lia.
  unfold binary_round. destruct (shl_align n _ _) as [mz ez].
  apply binary_round_aux_ge0_or_nan.
Qed.

Lemma py_round_ge0_or_nan (x y : float) (ndigits : nat) :
  ge0_or_nan x = true -> py_round x ndigits = Ok y -> ge0_or_nan y = true.
Proof.
  destruct x as [[]|[]| |[] m e]; try discriminate;
    try (intros _ [= <-]; reflexivity).
  intros _. unfold py_round, of_decimal. cbv zeta.
  destruct (scaled_nearest m e (Pos.of_nat (10 ^ ndigits))) as [|n|n];
    try (intros [= <-]; reflexivity).
  pose proof (div_ge0_or_nan (S754_finite false n 0)
                (S754_finite false (Pos.of_nat (10 ^ ndigits)) 0)
                eq_refl eq_refl) as Hd.
  destruct (F64.div _ _); intros [= <-]; exact Hd.
Qed.

Lemma ge0_ge0_or_nan (x : float) : ge0 x = true -> ge0_or_nan x = true.
Proof. unfold ge0_or_nan. now intros ->. Qed.


(** On a validated item every branch gives calories that are not below
    zero. *)
Lemma select_method_ge0_or_nan (item : FoodItem.t) (c : float) (m : string) (n : option string) :
  validate_FoodItem item = true ->
  select_method item = Ok (c, m, n) -> ge0_or_nan c = true.
Proof.
  unfold validate_FoodItem. rewrite !andb_true_iff.
  intros [[[Ha H1] H2] H3].
  apply ge0_ge0_or_nan in Ha.
  destruct (FoodItem.calories_per_100g item) as [c1|] eqn:E1.
  { rewrite (select_method_per_100g item c1 E1). intros [= <- _ _].
    apply div_ge0_or_nan; [|reflexivity].
    apply mul_ge0_or_nan; [exact Ha|]. now apply ge0_ge0_or_nan. }
  destruct (FoodItem.calories_per_serving item) as [c2|] eqn:E2;
    [destruct (FoodItem.serving_size_g item) as [s|] eqn:E3;
     [destruct (F64.ltb F64.zero s) eqn:Hs|]|].
  - rewrite (select_method_per_serving item c2 s E1 E2 E3 Hs). intros [= <- _ _].
    apply mul_ge0_or_nan; [|now apply ge0_ge0_or_nan].
    now apply div_ge0_or_nan.
  - rewrite select_method_insufficient_data by (eauto 6). now intros [= <- _ _].
  - rewrite select_method_insufficient_data by auto. now intros [= <- _ _].
  - rewrite select_method_insufficient_data by auto. now intros [= <- _ _].
Qed.

Lemma result_of_ge0_or_nan (item : FoodItem.t) (r : ItemResult.t) :
  validate_FoodItem item = true -> result_of item r ->
  ge0_or_nan (ItemResult.calories r) = true.
Proof.
  intros Hv (c & Hsel & Hc & _).
  apply (py_round_ge0_or_nan c _ 2); [|exact Hc].
  exact (select_method_ge0_or_nan item c _ _ Hv Hsel).
Qed.

Lemma running_total_ge0_or_nan (rs : list ItemResult.t) :
  forall total, ge0_or_nan total = true ->
  Forall (fun r => ge0_or_nan (ItemResult.calories r) = true) rs ->
  ge0_or_nan (running_total rs total) = true.
Proof.
  induction rs as [|r rs IH]; intros total Ht Hrs; [exact Ht|].
  inversion Hrs; subst. apply IH; [|assumption].
  now apply add_ge0_or_nan.
Qed.

Lemma Forall2_result_of_ge0_or_nan (items : list FoodItem.t) (rs : list ItemResult.t) :
  forallb validate_FoodItem items = true ->
  Forall2 result_of items rs ->
  Forall (fun r => ge0_or_nan (ItemResult.calories r) = true) rs.
Proof.
  intros Hv H. induction H as [|item r items rs Hr _ IH]; constructor.
  - cbn in Hv. apply andb_true_iff in Hv as [Hv _].
    exact (result_of_ge0_or_nan item r Hv Hr).
  - apply IH. cbn in Hv. now apply andb_true_iff in Hv as [_ Hv].
Qed.

(** ** The scenarios of the specification *)

Example apple_78 :
  calculate_calories (CalculationRequest.Build [apple])
  = Ok (CalculationResponse.Build (F64.of_Z 78)
          [ItemResult.Build "Apple" (F64.of_Z 150) (F64.of_Z 78) "per_100g" None]).
Proof. vm_compute. reflexivity. Qed.

Example bar_160 :
  calculate_calories (CalculationRequest.Build [bar])
  = Ok (CalculationResponse.Build (F64.of_Z 160)
          [ItemResult.Build "Bar" (F64.of_Z 40) (F64.of_Z 160) "per_serving" None]).
Proof. vm_compute. reflexivity. Qed.

Example apple_and_mystery_78 :
  calculate_calories (CalculationRequest.Build [apple; mystery])
  = Ok (CalculationResponse.Build (F64.of_Z 78)
          [ItemResult.Build "Apple" (F64.of_Z 150) (F64.of_Z 78) "per_100g" None;
           ItemResult.Build "Mystery" (F64.of_Z 100) F64.zero "insufficient_data"
             (Some "Missing calorie data; counted as 0")]).
Proof. vm_compute. reflexivity. Qed.

Example round_half_even_on_the_exact_value :
  py_round (F64.div (F64.of_Z 2675) (F64.of_Z 1000)) 2
  = Ok (F64.div (F64.of_Z 267) (F64.of_Z 100)) /\
  py_round (F64.div (F64.of_Z 125) (F64.of_Z 1000)) 2
  = Ok (F64.div (F64.of_Z 12) (F64.of_Z 100)) /\
  py_round (F64.div (F64.of_Z 375) (F64.of_Z 1000)) 2
  = Ok (F64.div (F64.of_Z 38) (F64.of_Z 100)).
Proof. repeat split; vm_compute; reflexivity. Qed.

(** * Properties of the specification *)

(** The response of a request and the result at position [i] of an item. *)
Lemma result_at (payload : CalculationRequest.t) (i : nat) (item : FoodItem.t) :
  nth_error (CalculationRequest.items payload) i = Some item ->
  exists resp r,
    calculate_calories payload = Ok resp /\
    nth_error (CalculationResponse.items resp) i = Some r /\
    result_of item r.
Proof.
  intros Hi.
  destruct (calculate_calories_spec payload) as (resp & Hresp & Hall & _).
  destruct (Forall2_nth_error _ _ _ Hall i item Hi) as (r & Hr & Hres).
  now exists resp, r.
Qed.

(** C1: an item whose [calories_per_100g] is present, whatever its
    [calories_per_serving] and [serving_size_g] are, gets a result with
    [calories = round(amount_g * calories_per_100g / 100, 2)] and method
    [per_100g]. *)
Theorem per_100g_when_present
  (payload : CalculationRequest.t) (i : nat) (item : FoodItem.t) (per_100g : float) :
  nth_error (CalculationRequest.items payload) i = Some item ->
  FoodItem.calories_per_100g item = Some per_100g ->
  exists resp r,
    calculate_calories payload = Ok resp /\
    nth_error (CalculationResponse.items resp) i = Some r /\
    py_round (F64.div (F64.mul (FoodItem.amount_g item) per_100g) F64.hundred) 2
    = Ok (ItemResult.calories r) /\
    ItemResult.method r = "per_100g".
Proof.
  intros Hi Hc.
  destruct (result_at payload i item Hi) as (resp & r & Hresp & Hr & c & Hsel & Hround & _).
  rewrite (select_method_per_100g item per_100g Hc) in Hsel.
  injection Hsel as <- Hm _.
  exists resp, r. auto.
Qed.

Lemma per_100g_when_present_witness :
  nth_error (CalculationRequest.items (CalculationRequest.Build [apple; bar; mystery])) 0
  = Some apple /\
  FoodItem.calories_per_100g apple = Some (F64.of_Z 52) /\
  exists resp r,
    calculate_calories (CalculationRequest.Build [apple; bar; mystery]) = Ok resp /\
    nth_error (CalculationResponse.items resp) 0 = Some r /\
    py_round (F64.div (F64.mul (FoodItem.amount_g apple) (F64.of_Z 52)) F64.hundred) 2
    = Ok (ItemResult.calories r) /\
    ItemResult.method r = "per_100g".
Proof.
  split; [reflexivity|]. split; [reflexivity|].
  apply (per_100g_when_present (CalculationRequest.Build [apple; bar; mystery]) 0 apple
           (F64.of_Z 52)); reflexivity.
Defined.

(** C2: an item without [calories_per_100g], with [calories_per_serving] and
    with a [serving_size_g > 0], gets a result with
    [calories = round((amount_g / serving_size_g) * calories_per_serving, 2)]
    and method [per_serving]. *)
Theorem per_serving_when_usable
  (payload : CalculationRequest.t) (i : nat) (item : FoodItem.t)
  (per_serving serving_size : float) :
  nth_error (CalculationRequest.items payload) i = Some item ->
  FoodItem.calories_per_100g item = None ->
  FoodItem.calories_per_serving item = Some per_serving ->
  FoodItem.serving_size_g item = Some serving_size ->
  F64.ltb F64.zero serving_size = true ->
  exists resp r,
    calculate_calories payload = Ok resp /\
    nth_error (CalculationResponse.items resp) i = Some r /\
    py_round (F64.mul (F64.div (FoodItem.amount_g item) serving_size) per_serving) 2
    = Ok (ItemResult.calories r) /\
    ItemResult.method r = "per_serving".
Proof.
  intros Hi H1 H2 H3 Hs.
  destruct (result_at payload i item Hi) as (resp & r & Hresp & Hr & c & Hsel & Hround & _).
  rewrite (select_method_per_serving item per_serving serving_size H1 H2 H3 Hs) in Hsel.
  injection Hsel as <- Hm _.
  exists resp, r. auto.
Qed.

Lemma per_serving_when_usable_witness :
  nth_error (CalculationRequest.items (CalculationRequest.Build [apple; bar; mystery])) 1
  = Some bar /\
  FoodItem.calories_per_100g bar = None /\
  FoodItem.calories_per_serving bar = Some (F64.of_Z 200) /\
  FoodItem.serving_size_g bar = Some (F64.of_Z 50) /\
  F64.ltb F64.zero (F64.of_Z 50) = true /\
  exists resp r,
    calculate_calories (CalculationRequest.Build [apple; bar; mystery]) = Ok resp /\
    nth_error (CalculationResponse.items resp) 1 = Some r /\
    py_round (F64.mul (F64.div (FoodItem.amount_g bar) (F64.of_Z 50)) (F64.of_Z 200)) 2
    = Ok (ItemResult.calories r) /\
    ItemResult.method r = "per_serving".
Proof.
  do 5 (split; [reflexivity|]).
  apply (per_serving_when_usable (CalculationRequest.Build [apple; bar; mystery]) 1 bar
           (F64.of_Z 200) (F64.of_Z 50)); reflexivity.
Defined.

(** C3: an item without [calories_per_100g] and without usable per-serving
    data ([calories_per_serving] absent, [serving_size_g] absent, or
    [serving_size_g <= 0]) gets a result with [calories = 0], method
    [insufficient_data] and a non-empty note; so does an item with
    [serving_size_g = 0] and [calories_per_serving] present: nothing is
    divided by zero. *)
Theorem insufficient_data_fallback
  (payload : CalculationRequest.t) (i : nat) (item : FoodItem.t) :
  nth_error (CalculationRequest.items payload) i = Some item ->
  FoodItem.calories_per_100g item = None ->
  (FoodItem.calories_per_serving item = None \/
   FoodItem.serving_size_g item = None \/
   exists s, FoodItem.serving_size_g item = Some s /\ F64.leb s F64.zero = true) ->
  exists resp r,
    calculate_calories payload = Ok resp /\
    nth_error (CalculationResponse.items resp) i = Some r /\
    ItemResult.calories r = F64.zero /\
    ItemResult.method r = "insufficient_data" /\
    exists text, ItemResult.note r = Some text /\ text <> "".
Proof.
  intros Hi H1 H.
  destruct (result_at payload i item Hi) as (resp & r & Hresp & Hr & c & Hsel & Hround & _).
  rewrite select_method_insufficient_data in Hsel.
  - injection Hsel as <- Hm Hn. injection Hround as Hc.
    exists resp, r. repeat split; auto.
    exists "Missing calorie data; counted as 0". split; [auto|discriminate].
  - exact H1.
  - destruct H as [H|[H|(s & H & Hs)]]; auto.
    right. right. exists s. split; [exact H|]. now apply leb_zero_not_positive.
Qed.

Lemma insufficient_data_fallback_witness :
  nth_error (CalculationRequest.items (CalculationRequest.Build [apple; zero_serving])) 1
  = Some zero_serving /\
  FoodItem.calories_per_100g zero_serving = None /\
  (FoodItem.calories_per_serving zero_serving = None \/
   FoodItem.serving_size_g zero_serving = None \/
   exists s, FoodItem.serving_size_g zero_serving = Some s /\ F64.leb s F64.zero = true) /\
  exists resp r,
    calculate_calories (CalculationRequest.Build [apple; zero_serving]) = Ok resp /\
    nth_error (CalculationResponse.items resp) 1 = Some r /\
    ItemResult.calories r = F64.zero /\
    ItemResult.method r = "insufficient_data" /\
    exists text, ItemResult.note r = Some text /\ text <> "".
Proof.
  assert (H : FoodItem.calories_per_serving zero_serving = None \/
              FoodItem.serving_size_g zero_serving = None \/
              exists s, FoodItem.serving_size_g zero_serving = Some s /\
                        F64.leb s F64.zero = true).
  { right. right. exists F64.zero. split; reflexivity. }
  split; [reflexivity|]. split; [reflexivity|]. split; [exact H|].
  apply (insufficient_data_fallback (CalculationRequest.Build [apple; zero_serving]) 1
           zero_serving); [reflexivity|reflexivity|exact H].
Defined.

Lemma Forall2_result_of_rounded (items : list FoodItem.t) (rs : list ItemResult.t) :
  Forall2 result_of items rs ->
  Forall2 (fun item r =>
             exists c, unrounded_calories item = Ok c /\
                       py_round c 2 = Ok (ItemResult.calories r)) items rs.
Proof.
  induction 1 as [|item r items rs (c & Hsel & Hround & _) _ IH]; constructor.
  - exists c. split; [|exact Hround].
    unfold unrounded_calories. rewrite Hsel. reflexivity.
  - exact IH.
Qed.

Lemma Forall2_result_of_echo (items : list FoodItem.t) (rs : list ItemResult.t) :
  Forall2 result_of items rs ->
  List.length rs = List.length items /\
  map (fun r => (ItemResult.name r, ItemResult.amount_g r)) rs
  = map (fun item => (FoodItem.name item, FoodItem.amount_g item)) items.
Proof.
  induction 1 as [|item r items rs (c & _ & _ & Hn & Ha) _ [IHl IHm]].
  - split; reflexivity.
  - cbn. rewrite IHl, IHm, Hn, Ha. split; reflexivity.
Qed.

(** C4: [total_calories] is the rounding of the sum of the per-item calories,
    each of which is itself a rounded value; this is not the rounding of the
    unrounded sum: for two items of 0.004 calories each the total is [0.0],
    and a single rounding of their sum would give [0.01]. *)
Theorem total_is_rounded_sum_of_rounded :
  (forall payload, exists resp,
     calculate_calories payload = Ok resp /\
     py_round (fold_left F64.add
                 (map ItemResult.calories (CalculationResponse.items resp)) F64.zero) 2
     = Ok (CalculationResponse.total_calories resp) /\
     Forall2 (fun item r =>
                exists c, unrounded_calories item = Ok c /\
                          py_round c 2 = Ok (ItemResult.calories r))
       (CalculationRequest.items payload) (CalculationResponse.items resp)) /\
  (exists resp single,
     calculate_calories (CalculationRequest.Build [crumb; crumb]) = Ok resp /\
     (s <- unrounded_sum [crumb; crumb] F64.zero ;; py_round s 2) = Ok single /\
     CalculationResponse.total_calories resp = F64.zero /\
     single = F64.div (F64.of_Z 1) (F64.of_Z 100) /\
     CalculationResponse.total_calories resp <> single).
Proof.
  split.
  - intros payload.
    destruct (calculate_calories_spec payload) as (resp & Hresp & Hall & Htotal).
    exists resp. split; [exact Hresp|]. split; [exact Htotal|].
    now apply Forall2_result_of_rounded.
  - eexists. eexists.
    split; [vm_compute; reflexivity|].
    split; [vm_compute; reflexivity|].
    split; [reflexivity|]. split; [vm_compute; reflexivity|]. discriminate.
Qed.

(** C5: the results have the length and the order of the input, and the
    i-th result carries the name and the amount of the i-th item. *)
Theorem results_follow_items (payload : CalculationRequest.t) :
  exists resp,
    calculate_calories payload = Ok resp /\
    List.length (CalculationResponse.items resp)
    = List.length (CalculationRequest.items payload) /\
    map (fun r => (ItemResult.name r, ItemResult.amount_g r))
      (CalculationResponse.items resp)
    = map (fun item => (FoodItem.name item, FoodItem.amount_g item))
        (CalculationRequest.items payload).
Proof.
  destruct (calculate_calories_spec payload) as (resp & Hresp & Hall & _).
  exists resp. split; [exact Hresp|].
  now apply Forall2_result_of_echo.
Qed.





Example minus_five_is_a_validation_error :
  post_api_calculate (CalculationRequest.Build [apple; negative_amount])
  = ValidationError [F64.of_Z (-5)].
Proof. reflexivity. Qed.

(** C7: on every request whose numeric fields are all non-negative
    [calculate_calories] returns a response: neither the divisions nor
    [round] raise. *)
Theorem calculate_calories_total (payload : CalculationRequest.t) :
  validate_CalculationRequest payload = true ->
  (exists resp, calculate_calories payload = Ok resp) /\
  (forall e, calculate_calories payload <> Raise e).
Proof.
  intros _. destruct (calculate_calories_spec payload) as (resp & Hresp & _).
  split; [now exists resp|]. intros e He. rewrite Hresp in He. discriminate.
Qed.

Lemma calculate_calories_total_witness :
  validate_CalculationRequest (CalculationRequest.Build [apple; bar; mystery; zero_serving]) = true /\
  (exists resp,
     calculate_calories (CalculationRequest.Build [apple; bar; mystery; zero_serving]) = Ok resp) /\
  (forall e,
     calculate_calories (CalculationRequest.Build [apple; bar; mystery; zero_serving]) <> Raise e).
Proof.
  split; [reflexivity|].
  apply (calculate_calories_total
           (CalculationRequest.Build [apple; bar; mystery; zero_serving])).
  reflexivity.
Defined.

(** C8, as stated, fails: [amount_g = 1.7e308], [calories_per_serving = 0]
    and [serving_size_g = 0.5] are non-negative, the number of servings
    overflows to infinity, and infinity times zero is NaN, which is not
    [>= 0]; the total is NaN as well. *)
Lemma calories_not_always_ge0 :
  validate_CalculationRequest (CalculationRequest.Build [huge_serving]) = true /\
  exists resp r,
    calculate_calories (CalculationRequest.Build [huge_serving]) = Ok resp /\
    CalculationResponse.items resp = [r] /\
    ge0 (ItemResult.calories r) = false /\
    ge0 (CalculationResponse.total_calories resp) = false.
Proof.
  split; [reflexivity|].
  eexists. eexists. split; [vm_compute; reflexivity|].
  split; [reflexivity|]. split; reflexivity.
Qed.

(** *** Non-negative values through the arithmetic *)

Lemma running_total_from_nan (rs : list ItemResult.t) :
  running_total rs S754_nan = S754_nan.
Proof. induction rs as [|r rs IH]; [reflexivity|exact IH]. Qed.

Lemma running_total_with_nan (rs : list ItemResult.t) :
  Exists (fun r => ItemResult.calories r = S754_nan) rs ->
  forall total, running_total rs total = S754_nan.
Proof.
  induction 1 as [r rs Hr|r rs _ IH]; intros total.
  - cbn [running_total map fold_left]. rewrite Hr.
    replace (F64.add total S754_nan) with S754_nan by (now destruct total).
    apply running_total_from_nan.
  - apply IH.
Qed.


Lemma binary_round_aux_ge0 (m e : Z) (l : location) :
  0 <= m -> ge0 (binary_round_aux F64.prec F64.emax false m e l) = true.
Proof.
  intros Hm. unfold binary_round_aux.
  pose proof (shr_fexp_spec m e l Hm) as H1. cbv zeta in H1.
  destruct (shr_fexp F64.prec F64.emax m e l) as [mrs1 e1]. cbn [fst snd] in H1.
  destruct H1 as [_ [Hm1 _]].
  pose proof (round_nearest_even_bounds (shr_m mrs1) (loc_of_shr_record mrs1)) as HM.
  pose proof (shr_fexp_spec _ e1 loc_Exact (proj1 (conj (Z.le_trans _ _ _ Hm1 (proj1 HM)) I)))
    as H2.
  cbv zeta in H2.
  destruct (shr_fexp F64.prec F64.emax _ e1 loc_Exact) as [mrs2 e2]. cbn [fst snd] in H2.
  destruct H2 as [_ [Hm2 _]].
  destruct (shr_m mrs2); try reflexivity; try lia.
  destruct (e2 <=? F64.emax - F64.prec); reflexivity.
Qed.

Lemma mul_ge0 (x y : float) :
  ge0 x = true -> ge0 y = true ->
  if inf_times_zero x y then F64.mul x y = S754_nan else ge0 (F64.mul x y) = true.
Proof.
  intros Hx Hy. float_cases2 x y Hx Hy.
  cbn [inf_times_zero is_inf is_zero andb orb]. apply binary_round_aux_ge0. lia.
Qed.

Lemma div_ge0 (x y : float) :
  ge0 x = true -> F64.ltb F64.zero y = true ->
  if is_inf x && is_inf y then F64.div x y = S754_nan else ge0 (F64.div x y) = true.
Proof.
  intros Hx Hy. float_cases2 x y Hx Hy.
  cbn [is_inf andb]. unfold F64.div, SFdiv.
  match goal with
  | |- context [SFdiv_core_binary _ _ (Zpos ?mx) ?ex (Zpos ?my) ?ey] =>
      pose proof (SFdiv_core_binary_nonneg mx my ex ey) as Hq;
      destruct (SFdiv_core_binary F64.prec F64.emax (Zpos mx) ex (Zpos my) ey)
        as [[mz ez] lz]
  end.
  now apply binary_round_aux_ge0.
Qed.

Lemma add_ge0 (x y : float) :
  ge0 x = true -> ge0 y = true -> ge0 (F64.add x y) = true.
Proof.
  intros Hx Hy. float_cases2 x y Hx Hy.
  unfold F64.add, SFadd, binary_normalize, cond_Zopp.
  destruct (Zpos _ + Zpos _) as [|n|n] eqn:Hn; try reflexivity; try lia.
  unfold binary_round. destruct (shl_align n _ _) as [mz ez].
  apply binary_round_aux_ge0. lia.
Qed.

Lemma py_round_ge0 (x y : float) :
  ge0 x = true -> py_round x 2 = Ok y -> ge0 y = true.
Proof.
  destruct x as [[]|[]| |[] m e]; try discriminate;
    try (intros _ [= <-]; reflexivity).
  intros _. unfold py_round, of_decimal. cbv zeta.
  destruct (scaled_nearest m e (Pos.of_nat (10 ^ 2))) as [|n|n];
    try (intros [= <-]; reflexivity).
  pose proof (div_ge0 (S754_finite false n 0)
                (S754_finite false (Pos.of_nat (10 ^ 2)) 0) eq_refl eq_refl) as Hd.
  cbn [is_inf andb] in Hd.
  destruct (F64.div _ _); intros [= <-]; exact Hd.
Qed.

(** On an item whose fields are not below zero the branch computes NaN
    exactly for the items of [yields_nan], and a value [>= 0] otherwise. *)
Lemma select_method_ge0 (item : FoodItem.t) (c : float) (m : string) (n : option string) :
  validate_FoodItem item = true ->
  select_method item = Ok (c, m, n) ->
  if yields_nan item then c = S754_nan else ge0 c = true.
Proof.
  unfold validate_FoodItem. rewrite !andb_true_iff.
  intros [[[Ha H1] H2] H3]. unfold yields_nan.
  destruct (FoodItem.calories_per_100g item) as [c1|] eqn:E1.
  { rewrite (select_method_per_100g item c1 E1). intros [= <- _ _].
    pose proof (mul_ge0 _ _ Ha H1) as Hm.
    destruct (inf_times_zero (FoodItem.amount_g item) c1).
    - rewrite Hm. reflexivity.
    - pose proof (div_ge0 _ F64.hundred Hm eq_refl) as Hd.
      now rewrite andb_false_r in Hd. }
  destruct (FoodItem.calories_per_serving item) as [c2|] eqn:E2;
    [destruct (FoodItem.serving_size_g item) as [s|] eqn:E3;
     [destruct (F64.ltb F64.zero s) eqn:Hs|]|].
  - rewrite (select_method_per_serving item c2 s E1 E2 E3 Hs). intros [= <- _ _].
    cbn [andb]. pose proof (div_ge0 _ s Ha Hs) as Hd.
    destruct (is_inf (FoodItem.amount_g item) && is_inf s).
    + rewrite Hd. reflexivity.
    + cbn [orb]. exact (mul_ge0 _ _ Hd H2).
  - rewrite select_method_insufficient_data by (eauto 6). now intros [= <- _ _].
  - rewrite select_method_insufficient_data by auto. now intros [= <- _ _].
  - rewrite select_method_insufficient_data by auto. now intros [= <- _ _].
Qed.

Lemma result_of_ge0 (item : FoodItem.t) (r : ItemResult.t) :
  validate_FoodItem item = true -> result_of item r ->
  if yields_nan item then ItemResult.calories r = S754_nan
  else ge0 (ItemResult.calories r) = true.
Proof.
  intros Hv (c & Hsel & Hc & _).
  pose proof (select_method_ge0 item c _ _ Hv Hsel) as H.
  destruct (yields_nan item).
  - subst c. now injection Hc as <-.
  - exact (py_round_ge0 c _ H Hc).
Qed.

Lemma Forall2_result_of_ge0 (items : list FoodItem.t) (rs : list ItemResult.t) :
  Forall2 result_of items rs ->
  Forall2 (fun item r =>
             ItemResult.name r = FoodItem.name item /\
             (validate_FoodItem item = true ->
              if yields_nan item then ItemResult.calories r = S754_nan
              else ge0 (ItemResult.calories r) = true)) items rs.
Proof.
  induction 1 as [|item r items rs Hr _ IH]; constructor; [|exact IH].
  split; [now destruct Hr as (c & _ & _ & Hn & _)|].
  intros Hv. exact (result_of_ge0 item r Hv Hr).
Qed.

Lemma running_total_ge0 (rs : list ItemResult.t) :
  forall total, ge0 total = true ->
  Forall (fun r => ge0 (ItemResult.calories r) = true) rs ->
  ge0 (running_total rs total) = true.
Proof.
  induction rs as [|r rs IH]; intros total Ht Hrs; [exact Ht|].
  inversion Hrs; subst. apply IH; [|assumption].
  now apply add_ge0.
Qed.

(** The results of a list of items whose fields are not below zero hold a
    NaN exactly when one of the items is of [yields_nan]; otherwise they are
    all [>= 0]. *)
Lemma results_nan_or_ge0 (items : list FoodItem.t) (rs : list ItemResult.t) :
  forallb validate_FoodItem items = true ->
  Forall2 (fun item r =>
             ItemResult.name r = FoodItem.name item /\
             (validate_FoodItem item = true ->
              if yields_nan item then ItemResult.calories r = S754_nan
              else ge0 (ItemResult.calories r) = true)) items rs ->
  if existsb yields_nan items
  then Exists (fun r => ItemResult.calories r = S754_nan) rs
  else Forall (fun r => ge0 (ItemResult.calories r) = true) rs.
Proof.
  intros Hv H. induction H as [|item r items rs [_ Hr] _ IH]; [constructor|].
  cbn in Hv. apply andb_true_iff in Hv as [Hitem Hv].
  specialize (Hr Hitem). specialize (IH Hv).
  cbn [existsb]. destruct (yields_nan item); cbn [orb].
  - now left.
  - destruct (existsb yields_nan items); [now right|now constructor].
Qed.

(** With finite fields the [per_100g] branch never computes NaN, and the
    [per_serving] branch does so only when the number of servings overflows to
    infinity and [calories_per_serving] is zero. *)
Lemma yields_nan_finite_per_100g (item : FoodItem.t) (c : float) :
  FoodItem.calories_per_100g item = Some c ->
  finite (FoodItem.amount_g item) = true -> finite c = true ->
  yields_nan item = false.
Proof.
  intros H Ha Hc. unfold yields_nan. rewrite H.
  destruct (FoodItem.amount_g item), c; try discriminate; reflexivity.
Qed.

Lemma yields_nan_finite_per_serving (item : FoodItem.t) (c s : float) :
  FoodItem.calories_per_100g item = None ->
  FoodItem.calories_per_serving item = Some c ->
  FoodItem.serving_size_g item = Some s ->
  finite (FoodItem.amount_g item) = true -> finite c = true -> finite s = true ->
  yields_nan item = true ->
  is_inf (F64.div (FoodItem.amount_g item) s) = true /\ is_zero c = true.
Proof.
  intros H1 H2 H3 Ha Hc Hs. unfold yields_nan. rewrite H1, H2, H3.
  destruct (F64.ltb F64.zero s); [|discriminate]. cbn [andb].
  replace (is_inf (FoodItem.amount_g item)) with false
    by (destruct (FoodItem.amount_g item); try discriminate; reflexivity).
  cbn [andb orb]. unfold inf_times_zero.
  replace (is_inf c) with false by (destruct c; try discriminate; reflexivity).
  rewrite andb_false_r, orb_false_r. now intros H%andb_true_iff.
Qed.

(** C8, amended: the result of every item whose numeric fields are all
    non-negative has non-negative calories, except for the items whose branch
    multiplies an infinity by a zero or divides an infinity by an infinity
    ([yields_nan]): their calories are NaN.  On a request whose items all have
    non-negative fields, [total_calories] is non-negative when the request has
    no such item, and NaN when it has. *)
Theorem calories_never_negative (payload : CalculationRequest.t) :
  exists resp,
    calculate_calories payload = Ok resp /\
    Forall2 (fun item r =>
               ItemResult.name r = FoodItem.name item /\
               (validate_FoodItem item = true ->
                if yields_nan item then ItemResult.calories r = S754_nan
                else ge0 (ItemResult.calories r) = true))
      (CalculationRequest.items payload) (CalculationResponse.items resp) /\
    (validate_CalculationRequest payload = true ->
     if existsb yields_nan (CalculationRequest.items payload)
     then CalculationResponse.total_calories resp = S754_nan
     else ge0 (CalculationResponse.total_calories resp) = true).
Proof.
  destruct (calculate_calories_spec payload) as (resp & Hresp & Hall & Htotal).
  pose proof (Forall2_result_of_ge0 _ _ Hall) as Hrs.
  exists resp. split; [exact Hresp|]. split; [exact Hrs|].
  intros Hv.
  pose proof (results_nan_or_ge0 _ _ Hv Hrs) as Hcases.
  destruct (existsb yields_nan (CalculationRequest.items payload)).
  - rewrite (running_total_with_nan _ Hcases) in Htotal. now injection Htotal.
  - apply (py_round_ge0 _ _ (running_total_ge0 _ F64.zero eq_refl Hcases) Htotal).
Qed.

Lemma calories_never_negative_witness :
  exists resp,
    calculate_calories (CalculationRequest.Build [apple; huge_serving; bar]) = Ok resp /\
    Forall2 (fun item r =>
               ItemResult.name r = FoodItem.name item /\
               if yields_nan item then ItemResult.calories r = S754_nan
               else ge0 (ItemResult.calories r) = true)
      [apple; huge_serving; bar] (CalculationResponse.items resp) /\
    CalculationResponse.total_calories resp = S754_nan.
Proof.
  destruct (calories_never_negative (CalculationRequest.Build [apple; huge_serving; bar]))
    as (resp & Hresp & Hitems & Htotal).
  exists resp. split; [exact Hresp|].
  split; [|apply Htotal; vm_compute; reflexivity].
  cbn [CalculationRequest.items] in Hitems.
  inversion Hitems as [|? r1 ? l1 [Nr1 Cr1] Hitems1]; subst.
  inversion Hitems1 as [|? r2 ? l2 [Nr2 Cr2] Hitems2]; subst.
  inversion Hitems2 as [|? r3 ? l3 [Nr3 Cr3] Hitems3]; subst.
  inversion Hitems3; subst.
  apply Forall2_cons; [split; [exact Nr1|apply Cr1; vm_compute; reflexivity]|].
  apply Forall2_cons; [split; [exact Nr2|apply Cr2; vm_compute; reflexivity]|].
  apply Forall2_cons; [split; [exact Nr3|apply Cr3; vm_compute; reflexivity]|].
  apply Forall2_nil.
Defined.

(** The two kinds of items, in one request and alone. *)
Example huge_serving_yields_nan :
  yields_nan huge_serving = true /\ yields_nan infinite_amount = true /\
  yields_nan apple = false /\ yields_nan bar = false /\ yields_nan mystery = false /\
  validate_CalculationRequest
    (CalculationRequest.Build [apple; huge_serving; bar; infinite_amount]) = true.
Proof. repeat split. Qed.

Example infinite_amount_gives_nan :
  calculate_calories (CalculationRequest.Build [infinite_amount])
  = Ok (CalculationResponse.Build S754_nan
          [ItemResult.Build "Infinity" (S754_infinity false) S754_nan "per_100g" None]).
Proof. vm_compute. reflexivity. Qed.

(** C9: every item of the request has its result, at its position and with
    its name and amount, and the method of that result is one of [per_100g],
    [per_serving] and [insufficient_data]; the initial value [unknown] is in no
    result, because the three branches are exhaustive. *)
Theorem method_is_one_of_three (payload : CalculationRequest.t) :
  exists resp,
    calculate_calories payload = Ok resp /\
    Forall2 (fun item r =>
               ItemResult.name r = FoodItem.name item /\
               ItemResult.amount_g r = FoodItem.amount_g item /\
               (ItemResult.method r = "per_100g" \/
                ItemResult.method r = "per_serving" \/
                ItemResult.method r = "insufficient_data") /\
               ItemResult.method r <> "unknown")
      (CalculationRequest.items payload) (CalculationResponse.items resp).
Proof.
  destruct (calculate_calories_spec payload) as (resp & Hresp & Hall & _).
  exists resp. split; [exact Hresp|].
  clear Hresp.
  induction Hall as [|item r items rs (c & Hsel & _ & Hname & Hamount) _ IH]; constructor.
  - split; [exact Hname|]. split; [exact Hamount|].
    destruct (select_method_total item) as (c' & m & n & Hsel' & _ & Hm).
    rewrite Hsel' in Hsel. injection Hsel as _ Heq _. rewrite <- Heq.
    split; [exact Hm|]. destruct Hm as [Hm|[Hm|Hm]]; rewrite Hm; discriminate.
  - exact IH.
Qed.

(** C10: for the empty list the response has [total_calories = 0.0] and no
    items. *)
Theorem empty_request :
  calculate_calories (CalculationRequest.Build [])
  = Ok (CalculationResponse.Build F64.zero []).
Proof. reflexivity. Qed.

(** * Further properties of [calculate_calories] *)

(** ** Each item has one result *)

Lemma result_of_unique (item : FoodItem.t) (r r' : ItemResult.t) :
  result_of item r -> result_of item r' -> r = r'.
Proof.
  intros (c & Hsel & Hc & Hn & Ha) (c' & Hsel' & Hc' & Hn' & Ha').
  rewrite Hsel in Hsel'. injection Hsel' as <- Hm Hnote.
  rewrite Hc in Hc'. injection Hc' as Hcal.
  destruct r, r'. cbn in *. congruence.
Qed.

Lemma Forall2_result_of_unique (items : list FoodItem.t) (rs rs' : list ItemResult.t) :
  Forall2 result_of items rs -> Forall2 result_of items rs' -> rs = rs'.
Proof.
  intros H. revert rs'. induction H as [|item r items rs Hr _ IH]; intros rs' H'.
  - now inversion H'.
  - inversion H' as [|item' r' items' rs'' Hr' Hrest]; subst.
    f_equal; [exact (result_of_unique item r r' Hr Hr')|now apply IH].
Qed.

(** The response of a request is determined by the results of its items. *)
Lemma calculate_calories_inv (payload : CalculationRequest.t) (resp : CalculationResponse.t) :
  calculate_calories payload = Ok resp ->
  Forall2 result_of (CalculationRequest.items payload) (CalculationResponse.items resp) /\
  py_round (running_total (CalculationResponse.items resp) F64.zero) 2
  = Ok (CalculationResponse.total_calories resp).
Proof.
  intros H. destruct (calculate_calories_spec payload) as (resp' & H' & Hall & Ht).
  rewrite H in H'. injection H' as <-. now split.
Qed.

Lemma running_total_app (rs rs' : list ItemResult.t) (total : float) :
  running_total (rs ++ rs') total = running_total rs' (running_total rs total).
Proof. unfold running_total. now rewrite map_app, fold_left_app. Qed.

(** The three branches, with the condition each one is taken under. *)
Lemma select_method_cases (item : FoodItem.t) :
  (exists c, FoodItem.calories_per_100g item = Some c /\
             select_method item
             = Ok (F64.div (F64.mul (FoodItem.amount_g item) c) F64.hundred,
                   "per_100g", None)) \/
  (FoodItem.calories_per_100g item = None /\
   exists c s, FoodItem.calories_per_serving item = Some c /\
               FoodItem.serving_size_g item = Some s /\
               F64.ltb F64.zero s = true /\
               select_method item
               = Ok (F64.mul (F64.div (FoodItem.amount_g item) s) c,
                     "per_serving", None)) \/
  (no_calorie_data item /\
   select_method item
   = Ok (F64.zero, "insufficient_data", Some "Missing calorie data; counted as 0")).
Proof.
  destruct (FoodItem.calories_per_100g item) as [c|] eqn:H1.
  { left. exists c. split; [reflexivity|]. now apply select_method_per_100g. }
  right.
  destruct (FoodItem.calories_per_serving item) as [c|] eqn:H2;
    [destruct (FoodItem.serving_size_g item) as [s|] eqn:H3;
     [destruct (F64.ltb F64.zero s) eqn:Hs|]|].
  - left. split; [reflexivity|]. exists c, s. repeat split; trivial.
    now apply select_method_per_serving.
  - right. assert (Hno : no_calorie_data item).
    { split; [exact H1|]. right. right. exists s. now split. }
    split; [exact Hno|]. apply select_method_insufficient_data; apply Hno.
  - right. assert (Hno : no_calorie_data item) by (split; auto).
    split; [exact Hno|]. apply select_method_insufficient_data; apply Hno.
  - right. assert (Hno : no_calorie_data item) by (split; auto).
    split; [exact Hno|]. apply select_method_insufficient_data; apply Hno.
Qed.

Lemma no_calorie_data_not_usable (item : FoodItem.t) :
  no_calorie_data item -> ~ usable_per_serving item.
Proof.
  intros [_ [H|[H|(s & H & Hs)]]] (c' & s' & H2 & H3 & Hs'); congruence.
Qed.

Lemma result_of_method (item : FoodItem.t) (r : ItemResult.t) :
  result_of item r ->
  (ItemResult.method r = "per_100g" <-> FoodItem.calories_per_100g item <> None) /\
  (ItemResult.method r = "per_serving" <->
     FoodItem.calories_per_100g item = None /\ usable_per_serving item) /\
  (ItemResult.method r = "insufficient_data" <-> no_calorie_data item).
Proof.
  intros (c & Hsel & _).
  destruct (select_method_cases item)
    as [(c1 & H1 & Hs)|[(H1 & c2 & s & H2 & H3 & Hpos & Hs)|(Hno & Hs)]];
    rewrite Hs in Hsel; injection Hsel as _ Hm _; rewrite <- Hm.
  - repeat split; try discriminate; try congruence.
    + intros [H _]. congruence.
    + intros [H _]. congruence.
  - assert (Hu : usable_per_serving item) by (exists c2, s; auto).
    repeat split; try discriminate; try congruence; trivial.
    intros Hno. now apply no_calorie_data_not_usable in Hno.
  - pose proof (no_calorie_data_not_usable item Hno) as Hnu.
    destruct Hno as [H1 Hrest].
    repeat split; try discriminate; try congruence; trivial.
    intros [_ Hu]. contradiction.
Qed.

(** X1: the method of a result tells which data the item had: [per_100g]
    exactly when [calories_per_100g] is present, [per_serving] exactly when
    it is absent and [calories_per_serving] and a [serving_size_g > 0] are
    present, [insufficient_data] exactly in the remaining case. *)
Theorem method_tells_the_data (payload : CalculationRequest.t) :
  exists resp,
    calculate_calories payload = Ok resp /\
    Forall2 (fun item r =>
               (ItemResult.method r = "per_100g" <->
                  FoodItem.calories_per_100g item <> None) /\
               (ItemResult.method r = "per_serving" <->
                  FoodItem.calories_per_100g item = None /\ usable_per_serving item) /\
               (ItemResult.method r = "insufficient_data" <-> no_calorie_data item))
      (CalculationRequest.items payload) (CalculationResponse.items resp).
Proof.
  destruct (calculate_calories_spec payload) as (resp & Hresp & Hall & _).
  exists resp. split; [exact Hresp|]. clear Hresp.
  induction Hall as [|item r items rs Hr _ IH]; constructor.
  - now apply result_of_method.
  - exact IH.
Qed.

(** X2: a result carries the note, with its fixed text, exactly when its
    method is [insufficient_data]; the results of the two computing branches
    have no note. *)
Theorem note_only_for_insufficient_data (payload : CalculationRequest.t) :
  exists resp,
    calculate_calories payload = Ok resp /\
    Forall (fun r =>
              (ItemResult.method r = "insufficient_data" /\
               ItemResult.note r = Some "Missing calorie data; counted as 0") \/
              (ItemResult.method r <> "insufficient_data" /\ ItemResult.note r = None))
      (CalculationResponse.items resp).
Proof.
  destruct (calculate_calories_spec payload) as (resp & Hresp & Hall & _).
  exists resp. split; [exact Hresp|]. clear Hresp.
  induction Hall as [|item r items rs (c & Hsel & _) _ IH]; constructor; [|exact IH].
  destruct (select_method_cases item)
    as [(c1 & H1 & Hs)|[(H1 & c2 & s & H2 & H3 & Hpos & Hs)|(Hno & Hs)]];
    rewrite Hs in Hsel; injection Hsel as _ Hm Hn; rewrite <- Hm, <- Hn.
  - right. split; [discriminate|reflexivity].
  - right. split; [discriminate|reflexivity].
  - left. split; reflexivity.
Qed.

(** X3: items are processed independently of each other: the results of a
    request made of two lists of items are the results of the first list
    followed by those of the second. *)
Theorem results_of_concatenation (items1 items2 : list FoodItem.t) :
  exists resp1 resp2 resp,
    calculate_calories (CalculationRequest.Build items1) = Ok resp1 /\
    calculate_calories (CalculationRequest.Build items2) = Ok resp2 /\
    calculate_calories (CalculationRequest.Build (items1 ++ items2)) = Ok resp /\
    CalculationResponse.items resp
    = CalculationResponse.items resp1 ++ CalculationResponse.items resp2.
Proof.
  destruct (calculate_calories_spec (CalculationRequest.Build items1))
    as (resp1 & H1 & Hall1 & _).
  destruct (calculate_calories_spec (CalculationRequest.Build items2))
    as (resp2 & H2 & Hall2 & _).
  destruct (calculate_calories_spec (CalculationRequest.Build (items1 ++ items2)))
    as (resp & H & Hall & _).
  exists resp1, resp2, resp. repeat split; trivial.
  cbn in *. apply (Forall2_result_of_unique (items1 ++ items2)); [exact Hall|].
  now apply Forall2_app.
Qed.

(** ** Items without data and the total *)

Lemma binary_round_aux_not_neg_zero (m e : Z) (l : location) :
  binary_round_aux F64.prec F64.emax false m e l <> S754_zero true.
Proof.
  unfold binary_round_aux.
  destruct (shr_fexp F64.prec F64.emax m e l) as [mrs1 e1].
  destruct (shr_fexp F64.prec F64.emax _ e1 loc_Exact) as [mrs2 e2].
  destruct (shr_m mrs2); try discriminate.
  destruct (e2 <=? F64.emax - F64.prec); discriminate.
Qed.

Lemma add_zero_r (x : float) : x <> S754_zero true -> F64.add x F64.zero = x.
Proof. destruct x as [[]| | |]; try reflexivity. now intros []. Qed.

(** A sum of values that are not below zero is the negative zero only if
    its first operand is. *)
Lemma add_not_neg_zero (x y : float) :
  ge0_or_nan x = true -> ge0_or_nan y = true ->
  x <> S754_zero true -> F64.add x y <> S754_zero true.
Proof.
  intros Hx Hy Hnz.
  destruct x as [[]|[]| |[] mx ex], y as [[]|[]| |[] my ey];
    try discriminate Hx; try discriminate Hy; try discriminate; try (now elim Hnz).
  unfold F64.add, SFadd, binary_normalize, cond_Zopp.
  destruct (Zpos _ + Zpos _) as [|n|n] eqn:Hn; try discriminate; try lia.
  unfold binary_round. destruct (shl_align n _ _) as [mz ez].
  apply binary_round_aux_not_neg_zero.
Qed.

Lemma running_total_not_neg_zero (rs : list ItemResult.t) :
  forall total,
    ge0_or_nan total = true -> total <> S754_zero true ->
    Forall (fun r => ge0_or_nan (ItemResult.calories r) = true) rs ->
    running_total rs total <> S754_zero true.
Proof.
  induction rs as [|r rs IH]; intros total Ht Hnz Hrs; [exact Hnz|].
  inversion Hrs; subst. apply IH; [| |assumption].
  - now apply add_ge0_or_nan.
  - now apply add_not_neg_zero.
Qed.

Lemma result_of_no_calorie_data (item : FoodItem.t) (r : ItemResult.t) :
  no_calorie_data item -> result_of item r -> ItemResult.calories r = F64.zero.
Proof.
  intros [H1 H] (c & Hsel & Hc & _).
  rewrite (select_method_insufficient_data item H1 H) in Hsel.
  injection Hsel as <- _ _. now injection Hc as <-.
Qed.

(** X4: an item without usable calorie data counts as 0: on a request whose
    numeric fields are all non-negative, [total_calories] is the one of the
    request without that item. *)
Theorem item_without_data_leaves_total
  (items1 items2 : list FoodItem.t) (item : FoodItem.t) :
  validate_CalculationRequest (CalculationRequest.Build (items1 ++ item :: items2)) = true ->
  no_calorie_data item ->
  exists resp resp',
    calculate_calories (CalculationRequest.Build (items1 ++ item :: items2)) = Ok resp /\
    calculate_calories (CalculationRequest.Build (items1 ++ items2)) = Ok resp' /\
    CalculationResponse.total_calories resp = CalculationResponse.total_calories resp'.
Proof.
  intros Hv Hno.
  destruct (calculate_calories_spec (CalculationRequest.Build (items1 ++ item :: items2)))
    as (resp & H & Hall & Ht).
  destruct (calculate_calories_spec (CalculationRequest.Build (items1 ++ items2)))
    as (resp' & H' & Hall' & Ht').
  exists resp, resp'. split; [exact H|]. split; [exact H'|].
  cbn in Hall, Hall'.
  apply Forall2_app_inv_l in Hall as (rs1 & rest & Hall1 & Hrest & Hrs).
  inversion Hrest as [|item0 r items0 rs2 Hr Hall2]; subst.
  assert (Hrs' : CalculationResponse.items resp' = rs1 ++ rs2).
  { apply (Forall2_result_of_unique (items1 ++ items2)); [exact Hall'|].
    now apply Forall2_app. }
  unfold validate_CalculationRequest in Hv. cbn in Hv.
  rewrite forallb_app in Hv. apply andb_true_iff in Hv as [Hv1 _].
  assert (Hsame : running_total (rs1 ++ r :: rs2) F64.zero
                  = running_total (rs1 ++ rs2) F64.zero).
  { rewrite !running_total_app. cbn [running_total map fold_left].
    rewrite (result_of_no_calorie_data item r Hno Hr).
    rewrite add_zero_r; [reflexivity|].
    apply running_total_not_neg_zero; [reflexivity|discriminate|].
    exact (Forall2_result_of_ge0_or_nan items1 rs1 Hv1 Hall1). }
  rewrite Hrs, Hsame, <- Hrs', Ht' in Ht. now injection Ht.
Qed.

Lemma item_without_data_leaves_total_witness :
  validate_CalculationRequest (CalculationRequest.Build ([apple] ++ mystery :: [bar])) = true /\
  no_calorie_data mystery /\
  exists resp resp',
    calculate_calories (CalculationRequest.Build ([apple] ++ mystery :: [bar])) = Ok resp /\
    calculate_calories (CalculationRequest.Build ([apple] ++ [bar])) = Ok resp' /\
    CalculationResponse.total_calories resp = CalculationResponse.total_calories resp'.
Proof.
  assert (Hno : no_calorie_data mystery) by (split; [reflexivity|left; reflexivity]).
  split; [reflexivity|]. split; [exact Hno|].
  apply (item_without_data_leaves_total [apple] [bar] mystery); [reflexivity|exact Hno].
Defined.

(** X5: an item with [amount_g == 0] whose calorie data are finite gets
    [calories == 0], whichever branch it takes. *)
Theorem zero_amount_zero_calories
  (payload : CalculationRequest.t) (i : nat) (item : FoodItem.t) :
  nth_error (CalculationRequest.items payload) i = Some item ->
  F64.eqb (FoodItem.amount_g item) F64.zero = true ->
  (forall c, FoodItem.calories_per_100g item = Some c -> finite c = true) ->
  (forall c, FoodItem.calories_per_serving item = Some c -> finite c = true) ->
  exists resp r,
    calculate_calories payload = Ok resp /\
    nth_error (CalculationResponse.items resp) i = Some r /\
    F64.eqb (ItemResult.calories r) F64.zero = true.
Proof.
  intros Hi Ha Hf1 Hf2.
  destruct (result_at payload i item Hi) as (resp & r & Hresp & Hr & c & Hsel & Hround & _).
  exists resp, r. split; [exact Hresp|]. split; [exact Hr|].
  destruct (FoodItem.amount_g item) as [sa|[]| |[] ma ea] eqn:Hamount;
    try discriminate Ha.
  destruct (select_method_cases item)
    as [(c1 & H1 & Hs)|[(H1 & c2 & s & H2 & H3 & Hpos & Hs)|(Hno & Hs)]];
    rewrite Hs in Hsel; injection Hsel as <-; rewrite ?Hamount in Hround.
  - specialize (Hf1 c1 H1).
    destruct c1 as [s1| | |s1 m1 e1]; try discriminate Hf1;
      cbn in Hround; injection Hround as <-; reflexivity.
  - specialize (Hf2 c2 H2).
    destruct s as [[]|[]| |[] ms es]; try discriminate Hpos;
      destruct c2 as [s2| | |s2 m2 e2]; try discriminate Hf2;
      cbn in Hround; injection Hround as <-; reflexivity.
  - injection Hround as <-. reflexivity.
Qed.

Lemma zero_amount_zero_calories_witness :
  nth_error (CalculationRequest.items (CalculationRequest.Build [apple; no_apple])) 1
  = Some no_apple /\
  F64.eqb (FoodItem.amount_g no_apple) F64.zero = true /\
  (forall c, FoodItem.calories_per_100g no_apple = Some c -> finite c = true) /\
  (forall c, FoodItem.calories_per_serving no_apple = Some c -> finite c = true) /\
  exists resp r,
    calculate_calories (CalculationRequest.Build [apple; no_apple]) = Ok resp /\
    nth_error (CalculationResponse.items resp) 1 = Some r /\
    F64.eqb (ItemResult.calories r) F64.zero = true.
Proof.
  assert (H1 : forall c, FoodItem.calories_per_100g no_apple = Some c -> finite c = true)
    by (intros c [= <-]; reflexivity).
  assert (H2 : forall c, FoodItem.calories_per_serving no_apple = Some c -> finite c = true)
    by (intros c [=]).
  split; [reflexivity|]. split; [reflexivity|]. split; [exact H1|]. split; [exact H2|].
  apply (zero_amount_zero_calories (CalculationRequest.Build [apple; no_apple]) 1 no_apple);
    [reflexivity|reflexivity|exact H1|exact H2].
Defined.

(** ** NaN *)

(** X6: one NaN among the calories of the results makes [total_calories]
    NaN. *)
Theorem nan_calories_make_total_nan
  (payload : CalculationRequest.t) (resp : CalculationResponse.t) :
  calculate_calories payload = Ok resp ->
  Exists (fun r => ItemResult.calories r = S754_nan) (CalculationResponse.items resp) ->
  CalculationResponse.total_calories resp = S754_nan.
Proof.
  intros H Hnan. apply calculate_calories_inv in H as [_ Ht].
  rewrite (running_total_with_nan _ Hnan) in Ht. now injection Ht.
Qed.

Lemma nan_calories_make_total_nan_witness :
  calculate_calories (CalculationRequest.Build [huge_serving]) = Ok huge_response /\
  Exists (fun r => ItemResult.calories r = S754_nan) (CalculationResponse.items huge_response) /\
  CalculationResponse.total_calories huge_response = S754_nan.
Proof.
  assert (H : calculate_calories (CalculationRequest.Build [huge_serving]) = Ok huge_response)
    by (vm_compute; reflexivity).
  assert (He : Exists (fun r => ItemResult.calories r = S754_nan)
                 (CalculationResponse.items huge_response))
    by (left; reflexivity).
  split; [exact H|]. split; [exact He|].
  exact (nan_calories_make_total_nan (CalculationRequest.Build [huge_serving])
           huge_response H He).
Defined.

(** * Properties of [test_database] *)

(** ** The five ways through the endpoint *)

Lemma test_database_import_raises (env : Environment) (e : PyException) :
  from_database_import_db env = ImportRaises e ->
  test_database env = report env (handler_text e) (Str.lit "Not Connected") [].
Proof.
  intros H. unfold test_database, try_import, report, handler_text. rewrite H.
  destruct (isinstance_ImportError e); reflexivity.
Qed.

Lemma test_database_none (env : Environment) :
  from_database_import_db env = Imported None ->
  test_database env
  = report env (Str.lit "⚠️  Available but not initialized") (Str.lit "Not Connected") [].
Proof.
  intros H. unfold test_database, try_import, report. rewrite H. reflexivity.
Qed.

Lemma test_database_name_raises (env : Environment) (db : Database) (e : PyException) :
  from_database_import_db env = Imported (Some db) ->
  db_name db = AttributeRaises e ->
  test_database env = report env (handler_text e) (Str.lit "Not Connected") [].
Proof.
  intros H Hn. unfold test_database, try_import, name_or_connected, report, handler_text.
  rewrite H, Hn. destruct (isinstance_ImportError e); reflexivity.
Qed.

Lemma test_database_listed (env : Environment) (db : Database) (names : list Str.t) :
  from_database_import_db env = Imported (Some db) ->
  (forall e, db_name db <> AttributeRaises e) ->
  list_collection_names db = Returned names ->
  test_database env
  = report env (Str.lit "✅ Connected & Working") (Str.lit "Connected") (firstn 10 names).
Proof.
  intros H Hn Hl.
  unfold test_database, try_import, name_or_connected, list_collections, report.
  rewrite H, Hl. destruct (db_name db) as [|v|e]; try reflexivity. now elim (Hn e).
Qed.

Lemma test_database_listing_raises (env : Environment) (db : Database) (e : PyException) :
  from_database_import_db env = Imported (Some db) ->
  (forall e, db_name db <> AttributeRaises e) ->
  list_collection_names db = Raised e ->
  test_database env
  = report env (Str.lit "⚠️  Connected but Error: " ++ Str.prefix 50 (str_of e))
      (Str.lit "Connected") [].
Proof.
  intros H Hn Hl.
  unfold test_database, try_import, name_or_connected, list_collections, report.
  rewrite H, Hl. destruct (db_name db) as [|v|e']; try reflexivity. now elim (Hn e').
Qed.

Lemma what_is_met (env : Environment) : met env.
Proof.
  destruct (from_database_import_db env) as [e|[db|]] eqn:H.
  - exact (MetImportRaises env e H).
  - destruct (db_name db) as [|v|e] eqn:Hn.
    + destruct (list_collection_names db) as [names|e] eqn:Hl.
      * apply (MetListed env db names H); [congruence|exact Hl].
      * apply (MetListingRaises env db e H); [congruence|exact Hl].
    + destruct (list_collection_names db) as [names|e] eqn:Hl.
      * apply (MetListed env db names H); [congruence|exact Hl].
      * apply (MetListingRaises env db e H); [congruence|exact Hl].
    + exact (MetNameRaises env db e H Hn).
  - exact (MetNone env H).
Qed.

(** The fields of the response, by what the endpoint met. *)
Lemma test_database_report (env : Environment) :
  exists database status collections,
    test_database env = report env database status collections.
Proof.
  destruct (what_is_met env) as [e H|H|db e H Hn|db names H Hn Hl|db e H Hn Hl].
  - rewrite (test_database_import_raises env e H). now do 3 eexists.
  - rewrite (test_database_none env H). now do 3 eexists.
  - rewrite (test_database_name_raises env db e H Hn). now do 3 eexists.
  - rewrite (test_database_listed env db names H Hn Hl). now do 3 eexists.
  - rewrite (test_database_listing_raises env db e H Hn Hl). now do 3 eexists.
Qed.

Lemma set_or_not_spec (variable : option Str.t) :
  (set_or_not variable = Str.lit "✅ Set" \/ set_or_not variable = Str.lit "❌ Not Set") /\
  (set_or_not variable = Str.lit "✅ Set" <-> exists v, variable = Some v /\ v <> []).
Proof.
  destruct variable as [[|c v]|]; cbn [set_or_not Str.truthy].
  - split; [now right|]. split.
    + intros H. vm_compute in H. discriminate H.
    + intros (v & [= <-] & Hv). now elim Hv.
  - split; [now left|]. split; [|reflexivity].
    intros _. exists (c :: v). split; [reflexivity|discriminate].
  - split; [now right|]. split.
    + intros H. vm_compute in H. discriminate H.
    + intros (v & [=] & _).
Qed.

(** X7: [database_url] and [database_name] of the response only tell whether
    the environment variables [DATABASE_URL] and [DATABASE_NAME] are set to a
    non-empty string: whatever the database module does, what the [try]
    block wrote into them ([✅ Configured], the name of the database) is
    replaced. *)
Theorem url_and_name_tell_the_environment (env : Environment) :
  (Report.database_url (test_database env) = Some (Str.lit "✅ Set") \/
   Report.database_url (test_database env) = Some (Str.lit "❌ Not Set")) /\
  (Report.database_url (test_database env) = Some (Str.lit "✅ Set") <->
   exists v, getenv_DATABASE_URL env = Some v /\ v <> []) /\
  (Report.database_name (test_database env) = Some (Str.lit "✅ Set") \/
   Report.database_name (test_database env) = Some (Str.lit "❌ Not Set")) /\
  (Report.database_name (test_database env) = Some (Str.lit "✅ Set") <->
   exists v, getenv_DATABASE_NAME env = Some v /\ v <> []).
Proof.
  destruct (test_database_report env) as (d & st & cs & ->).
  cbn [report Report.database_url Report.database_name].
  destruct (set_or_not_spec (getenv_DATABASE_URL env)) as [[Hu|Hu] Hiu];
    destruct (set_or_not_spec (getenv_DATABASE_NAME env)) as [[Hn|Hn] Hin];
    (split; [rewrite Hu; tauto|]);
    (split; [rewrite <- Hiu; split; [now intros [= ->]|now intros ->]|]);
    (split; [rewrite Hn; tauto|]);
    (rewrite <- Hin; split; [now intros [= ->]|now intros ->]).
Qed.

(** X8: [collections] holds at most 10 names; it is empty unless the listing
    of the collections returned, and then it is the first 10 names of the
    listing and [database] reads [✅ Connected & Working]. *)
Theorem collections_at_most_ten (env : Environment) :
  (List.length (Report.collections (test_database env)) <= 10)%nat /\
  (Report.collections (test_database env) = [] \/
   exists db names,
     from_database_import_db env = Imported (Some db) /\
     list_collection_names db = Returned names /\
     Report.collections (test_database env) = firstn 10 names /\
     Report.database (test_database env) = Str.lit "✅ Connected & Working").
Proof.
  destruct (what_is_met env) as [e H|H|db e H Hn|db names H Hn Hl|db e H Hn Hl].
  - rewrite (test_database_import_raises env e H). cbn. split; [lia|now left].
  - rewrite (test_database_none env H). cbn. split; [lia|now left].
  - rewrite (test_database_name_raises env db e H Hn). cbn. split; [lia|now left].
  - rewrite (test_database_listed env db names H Hn Hl).
    cbn [report Report.collections Report.database].
    split; [apply firstn_le_length|]. right. exists db, names. auto.
  - rewrite (test_database_listing_raises env db e H Hn Hl). cbn. split; [lia|now left].
Qed.

(** Two texts that differ are told apart by computing them. *)
Ltac texts_differ H := vm_compute in H; discriminate H.

(** X9: [connection_status] is [Connected] exactly when the module gave a
    database ([db] not [None]) whose attribute [name] could be looked up, even
    if the listing of the collections then fails; otherwise it keeps its
    initial value [Not Connected]. *)
Theorem connection_status_tells_the_database (env : Environment) :
  (Report.connection_status (test_database env) = Str.lit "Connected" \/
   Report.connection_status (test_database env) = Str.lit "Not Connected") /\
  (Report.connection_status (test_database env) = Str.lit "Connected" <->
   exists db, from_database_import_db env = Imported (Some db) /\
              forall e, db_name db <> AttributeRaises e).
Proof.
  destruct (what_is_met env) as [e H|H|db e H Hn|db names H Hn Hl|db e H Hn Hl].
  - rewrite (test_database_import_raises env e H). cbn [report Report.connection_status].
    split; [now right|]. split; [intros Hc; texts_differ Hc|].
    intros (db & Hdb & _). congruence.
  - rewrite (test_database_none env H). cbn [report Report.connection_status].
    split; [now right|]. split; [intros Hc; texts_differ Hc|].
    intros (db & Hdb & _). congruence.
  - rewrite (test_database_name_raises env db e H Hn). cbn [report Report.connection_status].
    split; [now right|]. split; [intros Hc; texts_differ Hc|].
    intros (db' & Hdb & Hn'). rewrite H in Hdb. injection Hdb as <-. now elim (Hn' e).
  - rewrite (test_database_listed env db names H Hn Hl). cbn [report Report.connection_status].
    split; [now left|]. split; [|reflexivity]. intros _. now exists db.
  - rewrite (test_database_listing_raises env db e H Hn Hl).
    cbn [report Report.connection_status].
    split; [now left|]. split; [|reflexivity]. intros _. now exists db.
Qed.

(** X10: [database] reads [✅ Connected & Working] exactly when the module
    gave a database, its [name] could be looked up and the listing of its
    collections returned; and the response never carries the initial text
    [❌ Not Available] nor the intermediate [✅ Available]: every way through
    the endpoint replaces them. *)
Theorem database_working_exactly_when_listed (env : Environment) :
  (Report.database (test_database env) = Str.lit "✅ Connected & Working" <->
   exists db names,
     from_database_import_db env = Imported (Some db) /\
     (forall e, db_name db <> AttributeRaises e) /\
     list_collection_names db = Returned names) /\
  Report.database (test_database env) <> Str.lit "❌ Not Available" /\
  Report.database (test_database env) <> Str.lit "✅ Available".
Proof.
  destruct (what_is_met env) as [e H|H|db e H Hn|db names H Hn Hl|db e H Hn Hl].
  - rewrite (test_database_import_raises env e H). cbn [report Report.database].
    unfold handler_text.
    destruct (isinstance_ImportError e);
      (split; [split; [intros Hc; texts_differ Hc|intros (db & ? & Hdb & _); congruence]|]);
      split; intros Hc; texts_differ Hc.
  - rewrite (test_database_none env H). cbn [report Report.database].
    split; [split; [intros Hc; texts_differ Hc|intros (db & ? & Hdb & _); congruence]|].
    split; intros Hc; texts_differ Hc.
  - rewrite (test_database_name_raises env db e H Hn). cbn [report Report.database].
    unfold handler_text.
    destruct (isinstance_ImportError e);
      (split; [split; [intros Hc; texts_differ Hc|
                       intros (db' & ? & Hdb & Hn' & _); rewrite H in Hdb;
                       injection Hdb as <-; now elim (Hn' e)]|]);
      split; intros Hc; texts_differ Hc.
  - rewrite (test_database_listed env db names H Hn Hl). cbn [report Report.database].
    split; [split; [intros _; now exists db, names|reflexivity]|].
    split; intros Hc; texts_differ Hc.
  - rewrite (test_database_listing_raises env db e H Hn Hl). cbn [report Report.database].
    split; [split; [intros Hc; texts_differ Hc|
                    intros (db' & names & Hdb & _ & Hl'); rewrite H in Hdb;
                    injection Hdb as <-; congruence]|].
    split; intros Hc; texts_differ Hc.
Qed.

(** X11: the text of an exception is cut to its first 50 characters, so
    [database] is never longer than 75 characters, however long the text of
    the exception is. *)
Theorem database_text_is_bounded (env : Environment) :
  (List.length (Report.database (test_database env)) <= 75)%nat.
Proof.
  assert (Hcut : forall s, (List.length (Str.prefix 50 s) <= 50)%nat)
    by (intros s; apply firstn_le_length).
  destruct (what_is_met env) as [e H|H|db e H Hn|db names H Hn Hl|db e H Hn Hl].
  - rewrite (test_database_import_raises env e H). cbn [report Report.database].
    unfold handler_text. destruct (isinstance_ImportError e).
    + vm_compute. lia.
    + rewrite length_app. specialize (Hcut (str_of e)).
      change (List.length (Str.lit "❌ Error: ")) with 9%nat. lia.
  - rewrite (test_database_none env H). vm_compute. lia.
  - rewrite (test_database_name_raises env db e H Hn). cbn [report Report.database].
    unfold handler_text. destruct (isinstance_ImportError e).
    + vm_compute. lia.
    + rewrite length_app. specialize (Hcut (str_of e)).
      change (List.length (Str.lit "❌ Error: ")) with 9%nat. lia.
  - rewrite (test_database_listed env db names H Hn Hl). vm_compute. lia.
  - rewrite (test_database_listing_raises env db e H Hn Hl). cbn [report Report.database].
    rewrite length_app. specialize (Hcut (str_of e)).
    change (List.length (Str.lit "⚠️  Connected but Error: ")) with 25%nat. lia.
Qed.

(** X12: an exception of the import, or of the look-up of [db.name], ends in
    a response that is not connected and lists no collection; [database] is
    the text "module not found" when the exception is an [ImportError], also
    when the module was found and [db.name] raised it, and otherwise
    [❌ Error:] with the first 50 characters of the text of the exception. *)
Theorem exception_outside_the_listing (env : Environment) (e : PyException) :
  (from_database_import_db env = ImportRaises e \/
   exists db, from_database_import_db env = Imported (Some db) /\
              db_name db = AttributeRaises e) ->
  Report.connection_status (test_database env) = Str.lit "Not Connected" /\
  Report.collections (test_database env) = [] /\
  Report.database (test_database env)
  = (if isinstance_ImportError e then
       Str.lit "❌ Database module not found (run enable-database first)"
     else Str.lit "❌ Error: " ++ Str.prefix 50 (str_of e)).
Proof.
  intros [H|(db & H & Hn)].
  - rewrite (test_database_import_raises env e H). repeat split.
  - rewrite (test_database_name_raises env db e H Hn). repeat split.
Qed.

Lemma exception_outside_the_listing_witness :
  (from_database_import_db (env_with (ImportRaises module_not_found))
   = ImportRaises module_not_found \/
   exists db, from_database_import_db (env_with (ImportRaises module_not_found))
              = Imported (Some db) /\
              db_name db = AttributeRaises module_not_found) /\
  Report.connection_status (test_database (env_with (ImportRaises module_not_found)))
  = Str.lit "Not Connected" /\
  Report.collections (test_database (env_with (ImportRaises module_not_found))) = [] /\
  Report.database (test_database (env_with (ImportRaises module_not_found)))
  = (if isinstance_ImportError module_not_found then
       Str.lit "❌ Database module not found (run enable-database first)"
     else Str.lit "❌ Error: " ++ Str.prefix 50 (str_of module_not_found)).
Proof.
  assert (H : from_database_import_db (env_with (ImportRaises module_not_found))
              = ImportRaises module_not_found \/
              exists db, from_database_import_db (env_with (ImportRaises module_not_found))
                         = Imported (Some db) /\
                         db_name db = AttributeRaises module_not_found)
    by (left; reflexivity).
  split; [exact H|].
  exact (exception_outside_the_listing (env_with (ImportRaises module_not_found))
           module_not_found H).
Defined.

(** The endpoint on a database with twelve collections, and on one whose
    listing fails with a text of sixty characters. *)
Example twelve_collections_listed :
  Report.collections (test_database (env_with (Imported (Some working_db))))
  = firstn 10 twelve_collections /\
  Report.database_name (test_database (env_with (Imported (Some working_db))))
  = Some (Str.lit "❌ Not Set") /\
  Report.database_url (test_database (env_with (Imported (Some working_db))))
  = Some (Str.lit "✅ Set").
Proof. repeat split. Qed.

Example failing_listing_cut :
  Report.database (test_database (env_with (Imported (Some failing_db))))
  = Str.lit "⚠️  Connected but Error: " ++ repeat 120%N 50 /\
  List.length (Report.database (test_database (env_with (Imported (Some failing_db)))))
  = 75%nat /\
  Report.connection_status (test_database (env_with (Imported (Some failing_db))))
  = Str.lit "Connected".
Proof. repeat split. Qed.
